(** * The docker driver's cookie: launch configuration and task life cycle

    A shallow embedding of [api/agent/drivers/docker/cookie.go].  A cookie
    identifies one request to run a task.  The [configure*] methods translate
    the task description into the container launch configuration; the methods
    of the [drivers.Cookie] interface ([ValidateImage], [PullImage],
    [CreateContainer], [Run], [Freeze], [Unfreeze], [Close]) drive the
    container runtime, the prefork pool, the network pool, the image cache and
    the image puller. *)

From Stdlib Require Import ZArith List String Ascii Bool Lia Permutation.
From stdpp Require Import base decidable option list gmap strings pretty.

Local Open Scope Z_scope.
Local Open Scope string_scope.
Local Open Scope list_scope.

(** ** Go's fixed-width integers, formatting and [strings.Fields] *)

Module Go.

Definition MaxInt64 : Z := 2 ^ 63 - 1.

Definition is_uint64 (z : Z) : Prop := 0 <= z < 2 ^ 64.

(** The conversions [uint64(x)] and [int64(x)]: the bits are kept, the value
    is read in the target type. *)
Definition uint64 (z : Z) : Z := z mod 2 ^ 64.
Definition int64 (z : Z) : Z := (z + 2 ^ 63) mod 2 ^ 64 - 2 ^ 63.

(** [a * b] on [uint64] operands. *)
Definition mul_uint64 (a b : Z) : Z := (a * b) mod 2 ^ 64.

(** The verbs [%v] and [%d] on an integer. *)
Definition fmt_int (z : Z) : string := pretty z.

(** An optional [*uint64] field is well formed when its value fits. *)
Definition is_uint64_ptr (p : option Z) : Prop :=
  match p with Some v => is_uint64 v | None => True end.

(** Width in bytes of a white space rune ([unicode.IsSpace]) that starts
    at the head of the UTF-8 bytes [bs], [0] when none does. *)
Definition spaceWidth (bs : list N) : nat :=
  match bs with
  | (9 | 10 | 11 | 12 | 13 | 32)%N :: _ => 1
  | 194%N :: (133 | 160)%N :: _ => 2                      (* U+0085, U+00A0 *)
  | 225%N :: 154%N :: 128%N :: _ => 3                     (* U+1680 *)
  | 226%N :: 128%N :: b :: _ =>
      if ((128 <=? b) && (b <=? 138))%N then 3            (* U+2000 .. U+200A *)
      else if ((b =? 168) || (b =? 169) || (b =? 175))%N then 3  (* U+2028, U+2029, U+202F *)
      else 0
  | 226%N :: 129%N :: 159%N :: _ => 3                     (* U+205F *)
  | 227%N :: 128%N :: 128%N :: _ => 3                     (* U+3000 *)
  | _ => 0
  end%nat.

Definition flush (cur : list N) (acc : list (list N)) : list (list N) :=
  match cur with [] => acc | _ => acc ++ [cur] end.

(** [skip] counts the bytes left of the white space rune being passed,
    [cur] is the field being read, [acc] the fields found so far. *)
Fixpoint fieldsFrom (bs : list N) (skip : nat) (cur : list N)
    (acc : list (list N)) : list (list N) :=
  match bs with
  | [] => flush cur acc
  | b :: bs' =>
      match skip with
      | S k => fieldsFrom bs' k cur acc
      | O =>
          match spaceWidth bs with
          | O => fieldsFrom bs' 0 (cur ++ [b]) acc
          | S k => fieldsFrom bs' k [] (flush cur acc)
          end
      end
  end.

Definition bytes_of (s : string) : list N := N_of_ascii <$> list_ascii_of_string s.
Definition string_of (bs : list N) : string := string_of_list_ascii (ascii_of_N <$> bs).

(** [strings.Fields]: the maximal runs of bytes that hold no white space. *)
Definition Fields (s : string) : list string :=
  string_of <$> fieldsFrom (bytes_of s) 0 [] [].

(** [strings.Join]. *)
Fixpoint Join (l : list string) (sep : string) : string :=
  match l with
  | [] => ""
  | [x] => x
  | x :: l' => x +:+ sep +:+ Join l' sep
  end.

End Go.

(** ** Errors

    The sentinel values the code compares against, and every other error. *)

Inductive error : Type :=
  | ErrNoSuchImage              (* docker.ErrNoSuchImage *)
  | ErrImageWithVolume          (* "image has Volume definition", 400 *)
  | ErrCallTimeoutServerBusy    (* models.ErrCallTimeoutServerBusy, 503 *)
  | ErrOther (msg : string).

#[global] Instance error_eq_dec : EqDecision error.
Proof. solve_decision. Defined.

(** ** The task description ([drivers.ContainerTask])

    The getters the cookie calls.  The numeric limits are unsigned 64-bit
    integers, which the cookie converts with [int64(..)]; the four soft
    ulimits are [*uint64], [nil] when absent. *)

Module LoggerConfig.
Record t : Type := mk {
  URL : string;
  Tags : list (string * string)       (* pair.Name, pair.Value *)
}.
End LoggerConfig.

Module Task.
Record t : Type := mk {
  Id : string;
  Image : string;
  Command : string;
  EnvVars : gmap string string;
  Volumes : list (string * string);   (* [][2]string: host dir, container dir *)
  Memory : Z;                         (* uint64 *)
  CPUs : Z;                           (* uint64, milli CPUs *)
  FsSize : Z;                         (* uint64, MB *)
  TmpFsSize : Z;                      (* uint64, MB *)
  PIDs : Z;                           (* uint64 *)
  OpenFiles : option Z;               (* *uint64 *)
  LockedMemory : option Z;
  PendingSignals : option Z;
  MessageQueue : option Z;
  WorkDir : string;
  LoggerConfig : LoggerConfig.t;
  DisableNet : bool;
  UDSDockerPath : string;
  UDSDockerDest : string;
  Auther : bool                       (* the task also implements Auther *)
}.

(** Every numeric limit has the range of its Go type. *)
Definition wf (x : t) : Prop :=
  Go.is_uint64 (Memory x) /\ Go.is_uint64 (CPUs x) /\ Go.is_uint64 (FsSize x) /\
  Go.is_uint64 (TmpFsSize x) /\ Go.is_uint64 (PIDs x) /\
  Go.is_uint64_ptr (OpenFiles x) /\ Go.is_uint64_ptr (LockedMemory x) /\
  Go.is_uint64_ptr (PendingSignals x) /\ Go.is_uint64_ptr (MessageQueue x).
End Task.

(** ** The launch configuration ([container.Config], [container.HostConfig]) *)

Module Ulimit.
Record t : Type := mk { Name : string; Soft : Z; Hard : Z }.
End Ulimit.

Module LogConfig.
Record t : Type := mk { Type_ : string; Config : option (gmap string string) }.
End LogConfig.

(** A [nil] map is [None]; [m[k] = v] after the code's
    [if m == nil { m = make(..) }]. *)
Definition map_set (k v : string) (m : option (gmap string string))
    : option (gmap string string) :=
  Some (<[k := v]> (default ∅ m)).

Module Config.
Record t : Type := mk {
  Labels : option (gmap string string);
  Volumes : option (gset string);       (* map[string]struct{} *)
  WorkingDir : string;
  Hostname : string;
  Cmd : list string;
  Env : list string;
  User : string
}.

Definition with_Labels (v : option (gmap string string)) (x : t) : t :=
  {| Labels := v; Volumes := Volumes x; WorkingDir := WorkingDir x; Hostname := Hostname x; Cmd :=
     Cmd x; Env := Env x; User := User x |}.
Definition with_Volumes (v : option (gset string)) (x : t) : t :=
  {| Labels := Labels x; Volumes := v; WorkingDir := WorkingDir x; Hostname := Hostname x; Cmd :=
     Cmd x; Env := Env x; User := User x |}.
Definition with_WorkingDir (v : string) (x : t) : t :=
  {| Labels := Labels x; Volumes := Volumes x; WorkingDir := v; Hostname := Hostname x; Cmd := Cmd
     x; Env := Env x; User := User x |}.
Definition with_Hostname (v : string) (x : t) : t :=
  {| Labels := Labels x; Volumes := Volumes x; WorkingDir := WorkingDir x; Hostname := v; Cmd :=
     Cmd x; Env := Env x; User := User x |}.
Definition with_Cmd (v : list string) (x : t) : t :=
  {| Labels := Labels x; Volumes := Volumes x; WorkingDir := WorkingDir x; Hostname := Hostname x;
     Cmd := v; Env := Env x; User := User x |}.
Definition with_Env (v : list string) (x : t) : t :=
  {| Labels := Labels x; Volumes := Volumes x; WorkingDir := WorkingDir x; Hostname := Hostname x;
     Cmd := Cmd x; Env := v; User := User x |}.
Definition with_User (v : string) (x : t) : t :=
  {| Labels := Labels x; Volumes := Volumes x; WorkingDir := WorkingDir x; Hostname := Hostname x;
     Cmd := Cmd x; Env := Env x; User := v |}.
End Config.

Module HostConfig.
Record t : Type := mk {
  LogConfig : LogConfig.t;
  Memory : Z;                           (* int64 *)
  MemorySwap : Z;
  KernelMemory : Z;
  MemorySwappiness : option Z;          (* *int64 *)
  PidsLimit : option Z;
  Ulimits : list Ulimit.t;
  CPUQuota : Z;
  CPUPeriod : Z;
  StorageOpt : option (gmap string string);
  Tmpfs : option (gmap string string);
  Binds : list string;
  NetworkMode : string;
  CapDrop : list string;
  SecurityOpt : list string
}.

Definition with_LogConfig (v : LogConfig.t) (x : t) : t :=
  {| LogConfig := v; Memory := Memory x; MemorySwap := MemorySwap x; KernelMemory := KernelMemory
     x; MemorySwappiness := MemorySwappiness x; PidsLimit := PidsLimit x; Ulimits := Ulimits x;
     CPUQuota := CPUQuota x; CPUPeriod := CPUPeriod x; StorageOpt := StorageOpt x; Tmpfs := Tmpfs
     x; Binds := Binds x; NetworkMode := NetworkMode x; CapDrop := CapDrop x; SecurityOpt :=
     SecurityOpt x |}.
Definition with_Memory (v : Z) (x : t) : t :=
  {| LogConfig := LogConfig x; Memory := v; MemorySwap := MemorySwap x; KernelMemory :=
     KernelMemory x; MemorySwappiness := MemorySwappiness x; PidsLimit := PidsLimit x; Ulimits :=
     Ulimits x; CPUQuota := CPUQuota x; CPUPeriod := CPUPeriod x; StorageOpt := StorageOpt x;
     Tmpfs := Tmpfs x; Binds := Binds x; NetworkMode := NetworkMode x; CapDrop := CapDrop x;
     SecurityOpt := SecurityOpt x |}.
Definition with_MemorySwap (v : Z) (x : t) : t :=
  {| LogConfig := LogConfig x; Memory := Memory x; MemorySwap := v; KernelMemory := KernelMemory
     x; MemorySwappiness := MemorySwappiness x; PidsLimit := PidsLimit x; Ulimits := Ulimits x;
     CPUQuota := CPUQuota x; CPUPeriod := CPUPeriod x; StorageOpt := StorageOpt x; Tmpfs := Tmpfs
     x; Binds := Binds x; NetworkMode := NetworkMode x; CapDrop := CapDrop x; SecurityOpt :=
     SecurityOpt x |}.
Definition with_KernelMemory (v : Z) (x : t) : t :=
  {| LogConfig := LogConfig x; Memory := Memory x; MemorySwap := MemorySwap x; KernelMemory := v;
     MemorySwappiness := MemorySwappiness x; PidsLimit := PidsLimit x; Ulimits := Ulimits x;
     CPUQuota := CPUQuota x; CPUPeriod := CPUPeriod x; StorageOpt := StorageOpt x; Tmpfs := Tmpfs
     x; Binds := Binds x; NetworkMode := NetworkMode x; CapDrop := CapDrop x; SecurityOpt :=
     SecurityOpt x |}.
Definition with_MemorySwappiness (v : option Z) (x : t) : t :=
  {| LogConfig := LogConfig x; Memory := Memory x; MemorySwap := MemorySwap x; KernelMemory :=
     KernelMemory x; MemorySwappiness := v; PidsLimit := PidsLimit x; Ulimits := Ulimits x;
     CPUQuota := CPUQuota x; CPUPeriod := CPUPeriod x; StorageOpt := StorageOpt x; Tmpfs := Tmpfs
     x; Binds := Binds x; NetworkMode := NetworkMode x; CapDrop := CapDrop x; SecurityOpt :=
     SecurityOpt x |}.
Definition with_PidsLimit (v : option Z) (x : t) : t :=
  {| LogConfig := LogConfig x; Memory := Memory x; MemorySwap := MemorySwap x; KernelMemory :=
     KernelMemory x; MemorySwappiness := MemorySwappiness x; PidsLimit := v; Ulimits := Ulimits x;
     CPUQuota := CPUQuota x; CPUPeriod := CPUPeriod x; StorageOpt := StorageOpt x; Tmpfs := Tmpfs
     x; Binds := Binds x; NetworkMode := NetworkMode x; CapDrop := CapDrop x; SecurityOpt :=
     SecurityOpt x |}.
Definition with_Ulimits (v : list Ulimit.t) (x : t) : t :=
  {| LogConfig := LogConfig x; Memory := Memory x; MemorySwap := MemorySwap x; KernelMemory :=
     KernelMemory x; MemorySwappiness := MemorySwappiness x; PidsLimit := PidsLimit x; Ulimits :=
     v; CPUQuota := CPUQuota x; CPUPeriod := CPUPeriod x; StorageOpt := StorageOpt x; Tmpfs :=
     Tmpfs x; Binds := Binds x; NetworkMode := NetworkMode x; CapDrop := CapDrop x; SecurityOpt :=
     SecurityOpt x |}.
Definition with_CPUQuota (v : Z) (x : t) : t :=
  {| LogConfig := LogConfig x; Memory := Memory x; MemorySwap := MemorySwap x; KernelMemory :=
     KernelMemory x; MemorySwappiness := MemorySwappiness x; PidsLimit := PidsLimit x; Ulimits :=
     Ulimits x; CPUQuota := v; CPUPeriod := CPUPeriod x; StorageOpt := StorageOpt x; Tmpfs :=
     Tmpfs x; Binds := Binds x; NetworkMode := NetworkMode x; CapDrop := CapDrop x; SecurityOpt :=
     SecurityOpt x |}.
Definition with_CPUPeriod (v : Z) (x : t) : t :=
  {| LogConfig := LogConfig x; Memory := Memory x; MemorySwap := MemorySwap x; KernelMemory :=
     KernelMemory x; MemorySwappiness := MemorySwappiness x; PidsLimit := PidsLimit x; Ulimits :=
     Ulimits x; CPUQuota := CPUQuota x; CPUPeriod := v; StorageOpt := StorageOpt x; Tmpfs := Tmpfs
     x; Binds := Binds x; NetworkMode := NetworkMode x; CapDrop := CapDrop x; SecurityOpt :=
     SecurityOpt x |}.
Definition with_StorageOpt (v : option (gmap string string)) (x : t) : t :=
  {| LogConfig := LogConfig x; Memory := Memory x; MemorySwap := MemorySwap x; KernelMemory :=
     KernelMemory x; MemorySwappiness := MemorySwappiness x; PidsLimit := PidsLimit x; Ulimits :=
     Ulimits x; CPUQuota := CPUQuota x; CPUPeriod := CPUPeriod x; StorageOpt := v; Tmpfs := Tmpfs
     x; Binds := Binds x; NetworkMode := NetworkMode x; CapDrop := CapDrop x; SecurityOpt :=
     SecurityOpt x |}.
Definition with_Tmpfs (v : option (gmap string string)) (x : t) : t :=
  {| LogConfig := LogConfig x; Memory := Memory x; MemorySwap := MemorySwap x; KernelMemory :=
     KernelMemory x; MemorySwappiness := MemorySwappiness x; PidsLimit := PidsLimit x; Ulimits :=
     Ulimits x; CPUQuota := CPUQuota x; CPUPeriod := CPUPeriod x; StorageOpt := StorageOpt x;
     Tmpfs := v; Binds := Binds x; NetworkMode := NetworkMode x; CapDrop := CapDrop x; SecurityOpt
     := SecurityOpt x |}.
Definition with_Binds (v : list string) (x : t) : t :=
  {| LogConfig := LogConfig x; Memory := Memory x; MemorySwap := MemorySwap x; KernelMemory :=
     KernelMemory x; MemorySwappiness := MemorySwappiness x; PidsLimit := PidsLimit x; Ulimits :=
     Ulimits x; CPUQuota := CPUQuota x; CPUPeriod := CPUPeriod x; StorageOpt := StorageOpt x;
     Tmpfs := Tmpfs x; Binds := v; NetworkMode := NetworkMode x; CapDrop := CapDrop x; SecurityOpt
     := SecurityOpt x |}.
Definition with_NetworkMode (v : string) (x : t) : t :=
  {| LogConfig := LogConfig x; Memory := Memory x; MemorySwap := MemorySwap x; KernelMemory :=
     KernelMemory x; MemorySwappiness := MemorySwappiness x; PidsLimit := PidsLimit x; Ulimits :=
     Ulimits x; CPUQuota := CPUQuota x; CPUPeriod := CPUPeriod x; StorageOpt := StorageOpt x;
     Tmpfs := Tmpfs x; Binds := Binds x; NetworkMode := v; CapDrop := CapDrop x; SecurityOpt :=
     SecurityOpt x |}.
Definition with_CapDrop (v : list string) (x : t) : t :=
  {| LogConfig := LogConfig x; Memory := Memory x; MemorySwap := MemorySwap x; KernelMemory :=
     KernelMemory x; MemorySwappiness := MemorySwappiness x; PidsLimit := PidsLimit x; Ulimits :=
     Ulimits x; CPUQuota := CPUQuota x; CPUPeriod := CPUPeriod x; StorageOpt := StorageOpt x;
     Tmpfs := Tmpfs x; Binds := Binds x; NetworkMode := NetworkMode x; CapDrop := v; SecurityOpt
     := SecurityOpt x |}.
Definition with_SecurityOpt (v : list string) (x : t) : t :=
  {| LogConfig := LogConfig x; Memory := Memory x; MemorySwap := MemorySwap x; KernelMemory :=
     KernelMemory x; MemorySwappiness := MemorySwappiness x; PidsLimit := PidsLimit x; Ulimits :=
     Ulimits x; CPUQuota := CPUQuota x; CPUPeriod := CPUPeriod x; StorageOpt := StorageOpt x;
     Tmpfs := Tmpfs x; Binds := Binds x; NetworkMode := NetworkMode x; CapDrop := CapDrop x;
     SecurityOpt := v |}.
End HostConfig.

(** ** Images, credentials, the driver *)

Module CachedImage.
Record t : Type := mk {
  ID : string; ParentID : string; RepoTags : list string; Size : Z (* uint64 *)
}.
End CachedImage.

(** [types.ImageInspect], the fields the cookie reads. *)
Module ImageInspect.
Record t : Type := mk {
  ID : string; Parent : string; RepoTags : list string;
  Size : Z;                             (* int64 *)
  Config : option Config.t              (* *container.Config *)
}.
End ImageInspect.

Module AuthConfig.
Record t : Type := mk { Username : string; Password : string; ServerAddress : string }.
End AuthConfig.

Module Driver.
(** [drivers.Config], the fields the cookie reads. *)
Record Conf : Type := mkConf {
  ContainerLabelTag : string;
  EnableReadOnlyRootFs : bool;
  MaxTmpFsInodes : Z;                   (* uint64 *)
  DisableUnprivilegedContainers : bool;
  ImageEnableVolume : bool
}.

(** [DockerDriver].  Of the prefork pool and the image cache the cookie
    only tests the pointer against [nil]; their state is the
    collaborators'. *)
Record t : Type := mk {
  conf : Conf;
  pool : bool;                          (* drv.pool != nil *)
  imgCache : bool;                      (* drv.imgCache != nil *)
  hostname : string;
  instanceId : string;
  auths : gmap string AuthConfig.t
}.
End Driver.

(** ** The cookie *)

Record cookie : Type := mkCookie {
  poolId : string;                        (* namespace id from the prefork pool *)
  netId : string;                         (* network name from the docker networks *)
  opts : Config.t;
  hostOpts : HostConfig.t;
  task : Task.t;
  drv : Driver.t;
  imgReg : string;
  image : option CachedImage.t;           (* the inspected image, [nil] before *)
  containerCreated : bool
}.

Definition with_poolId (v : string) (c : cookie) : cookie :=
  {| poolId := v; netId := netId c; opts := opts c; hostOpts := hostOpts c; task := task c; drv :=
     drv c; imgReg := imgReg c; image := image c; containerCreated := containerCreated c |}.
Definition with_netId (v : string) (c : cookie) : cookie :=
  {| poolId := poolId c; netId := v; opts := opts c; hostOpts := hostOpts c; task := task c; drv
     := drv c; imgReg := imgReg c; image := image c; containerCreated := containerCreated c |}.
Definition with_opts (v : Config.t) (c : cookie) : cookie :=
  {| poolId := poolId c; netId := netId c; opts := v; hostOpts := hostOpts c; task := task c; drv
     := drv c; imgReg := imgReg c; image := image c; containerCreated := containerCreated c |}.
Definition with_hostOpts (v : HostConfig.t) (c : cookie) : cookie :=
  {| poolId := poolId c; netId := netId c; opts := opts c; hostOpts := v; task := task c; drv :=
     drv c; imgReg := imgReg c; image := image c; containerCreated := containerCreated c |}.
Definition with_imgReg (v : string) (c : cookie) : cookie :=
  {| poolId := poolId c; netId := netId c; opts := opts c; hostOpts := hostOpts c; task := task c;
     drv := drv c; imgReg := v; image := image c; containerCreated := containerCreated c |}.
Definition with_image (v : option CachedImage.t) (c : cookie) : cookie :=
  {| poolId := poolId c; netId := netId c; opts := opts c; hostOpts := hostOpts c; task := task c;
     drv := drv c; imgReg := imgReg c; image := v; containerCreated := containerCreated c |}.
Definition with_containerCreated (v : bool) (c : cookie) : cookie :=
  {| poolId := poolId c; netId := netId c; opts := opts c; hostOpts := hostOpts c; task := task c;
     drv := drv c; imgReg := imgReg c; image := image c; containerCreated := v |}.

Definition zeroConfig : Config.t :=
  {| Config.Labels := None; Config.Volumes := None; Config.WorkingDir := "";
     Config.Hostname := ""; Config.Cmd := []; Config.Env := []; Config.User := "" |}.

Definition zeroHostConfig : HostConfig.t :=
  {| HostConfig.LogConfig := LogConfig.mk "" None;
     HostConfig.Memory := 0; HostConfig.MemorySwap := 0; HostConfig.KernelMemory := 0;
     HostConfig.MemorySwappiness := None; HostConfig.PidsLimit := None;
     HostConfig.Ulimits := []; HostConfig.CPUQuota := 0; HostConfig.CPUPeriod := 0;
     HostConfig.StorageOpt := None; HostConfig.Tmpfs := None; HostConfig.Binds := [];
     HostConfig.NetworkMode := ""; HostConfig.CapDrop := []; HostConfig.SecurityOpt := [] |}.

(** ** Calls to the collaborators

    Every call the cookie makes on the docker client, the pools, the image
    cache, the image puller, the task's authenticator and the driver's [run]
    is recorded, in order, with its arguments. *)

Module Call.
Inductive t : Type :=
  | ImageInspectWithRaw (image : string)
  | ContainerCreate (opts : Config.t) (hostOpts : HostConfig.t) (name : string)
  | RemoveContainer (ID : string) (Force RemoveVolumes : bool)
  | PauseContainer (id : string)
  | UnpauseContainer (id : string)
  | AllocPoolId
  | FreePoolId (id : string)
  | AllocNetwork
  | FreeNetwork (id : string)
  | MarkBusy (img : CachedImage.t)
  | MarkFree (img : CachedImage.t)
  | Update (img : CachedImage.t)
  | PullImage (cfg : AuthConfig.t) (image : string)
  | DockerAuth (image : string)
  | run (task : Task.t).
End Call.

(** What the cookie is linked against: the constants and functions of the
    packages it imports, and the collaborators, each a transition on their
    joint state [R] that yields the call's results. *)

Module Collab.
Class t (R : Type) : Type := mk {
  WaitResult : Type;                    (* drivers.WaitResult *)
  FnAgentClassifierLabel : string;
  FnAgentInstanceLabel : string;
  ParseImage : string -> string * string * string;
  findRegistryConfig : string -> gmap string AuthConfig.t -> AuthConfig.t;
  ImageInspectWithRaw : string -> R -> (ImageInspect.t * option error) * R;
  ContainerCreate : Config.t -> HostConfig.t -> string -> R -> option error * R;
  RemoveContainer : string -> bool -> bool -> R -> option error * R;
  PauseContainer : string -> R -> option error * R;
  UnpauseContainer : string -> R -> option error * R;
  AllocPoolId : R -> (string * option error) * R;
  FreePoolId : string -> R -> unit * R;
  AllocNetwork : R -> string * R;
  FreeNetwork : string -> R -> unit * R;
  MarkBusy : CachedImage.t -> R -> unit * R;
  MarkFree : CachedImage.t -> R -> unit * R;
  Update : CachedImage.t -> R -> unit * R;
  PullImage : AuthConfig.t -> string -> R -> option error * R;
  DockerAuth : string -> R -> (option AuthConfig.t * option error) * R;
  run : Task.t -> R -> (WaitResult * option error) * R
}.
End Collab.

(** ** The monad of the cookie's methods

    A method runs on the cookie it is called on, the collaborators' state and
    the record of calls made so far.  [log.Fatal] ends the process: nothing
    runs after it.  Log lines other than that are not modelled. *)

Record State (R : Type) : Type := mkState {
  ck : cookie;
  world : R;
  calls : list Call.t
}.
Arguments mkState {R} _ _ _.
Arguments ck {R} _.
Arguments world {R} _.
Arguments calls {R} _.

Inductive Outcome (R A : Type) : Type :=
  | Done (a : A) (s : State R)
  | Fatal (s : State R).
Arguments Done {R A} _ _.
Arguments Fatal {R A} _.

Definition M (R A : Type) : Type := State R -> Outcome R A.

#[global] Instance M_ret {R} : MRet (M R) := fun A a s => Done a s.
#[global] Instance M_bind {R} : MBind (M R) := fun A B f m s =>
  match m s with
  | Done a s' => f a s'
  | Fatal s' => Fatal s'
  end.

Definition getck {R} : M R cookie := fun s => Done (ck s) s.

Definition modck {R} (f : cookie -> cookie) : M R unit :=
  fun s => Done tt (mkState (f (ck s)) (world s) (calls s)).

Definition fatal {R A} : M R A := fun s => Fatal s.

(** A call is recorded, then answered by the collaborator. *)
Definition call {R A} (e : Call.t) (h : R -> A * R) : M R A :=
  fun s => let '(a, w) := h (world s) in Done a (mkState (ck s) w (calls s ++ [e])).

(** The order in which one [range] statement visits the entries of a map is
    not specified by Go and differs from run to run; any enumeration of
    the entries is one. *)
Definition range_order (m : gmap string string) (l : list (string * string)) : Prop :=
  l ≡ₚ map_to_list m.

Definition FnUserId : Z := 1000.
Definition FnGroupId : Z := 1000.
Definition FnDockerUser : string := Go.fmt_int FnUserId +:+ ":" +:+ Go.fmt_int FnGroupId.

(** ** The configuration steps *)

Section Configure.
Context {R : Type} `{!Collab.t R}.

Definition on_opts (f : Config.t -> Config.t) (c : cookie) : cookie :=
  with_opts (f (opts c)) c.
Definition on_hostOpts (f : HostConfig.t -> HostConfig.t) (c : cookie) : cookie :=
  with_hostOpts (f (hostOpts c)) c.

Definition configureImage (c : cookie) : cookie :=
  with_imgReg (Collab.ParseImage (Task.Image (task c))).1.1 c.

Definition configureLabels (c : cookie) : cookie :=
  let tag := Driver.ContainerLabelTag (Driver.conf (drv c)) in
  if decide (tag = "") then c
  else
    let labels := map_set Collab.FnAgentClassifierLabel tag (Config.Labels (opts c)) in
    let labels := map_set Collab.FnAgentInstanceLabel (Driver.instanceId (drv c)) labels in
    on_opts (Config.with_Labels labels) c.

Definition configureLogger (c : cookie) : cookie :=
  let conf := Task.LoggerConfig (task c) in
  if decide (LoggerConfig.URL conf = "") then
    on_hostOpts (HostConfig.with_LogConfig (LogConfig.mk "none" None)) c
  else
    let cfg : gmap string string :=
      <["syslog-format" := "rfc5424"]>
        (<["syslog-facility" := "user"]>
           (<["syslog-address" := LoggerConfig.URL conf]> ∅)) in
    let tags := (fun pair : string * string => pair.1 +:+ "=" +:+ pair.2)
                  <$> LoggerConfig.Tags conf in
    let cfg := if decide (0 < length tags)%nat
               then <["tag" := Go.Join tags ","]> cfg else cfg in
    on_hostOpts (HostConfig.with_LogConfig (LogConfig.mk "syslog" (Some cfg))) c.

Definition configureMem (c : cookie) : cookie :=
  if decide (Task.Memory (task c) = 0) then c
  else
    let mem := Go.int64 (Task.Memory (task c)) in
    on_hostOpts (fun h =>
      HostConfig.with_MemorySwappiness (Some 0)
        (HostConfig.with_KernelMemory mem
           (HostConfig.with_MemorySwap mem
              (HostConfig.with_Memory mem h)))) c.

Definition configureFsSize (c : cookie) : cookie :=
  if decide (Task.FsSize (task c) = 0) then c
  else
    let opt := Go.fmt_int (Task.FsSize (task c)) +:+ "M" in
    on_hostOpts (fun h =>
      HostConfig.with_StorageOpt (map_set "size" opt (HostConfig.StorageOpt h)) h) c.

Definition configurePIDs (c : cookie) : cookie :=
  let pids := Task.PIDs (task c) in
  if decide (pids = 0) then c
  else on_hostOpts (HostConfig.with_PidsLimit (Some (Go.int64 pids))) c.

Definition configureULimit (name : string) (value : option Z) (c : cookie) : cookie :=
  match value with
  | None => c
  | Some v =>
      let value64 := Go.int64 v in
      if decide (value64 < 0) then c
      else on_hostOpts (fun h =>
             HostConfig.with_Ulimits
               (HostConfig.Ulimits h ++ [Ulimit.mk name value64 value64]) h) c
  end.

Definition configureULimits (c : cookie) : cookie :=
  let c := configureULimit "nofile" (Task.OpenFiles (task c)) c in
  let c := configureULimit "memlock" (Task.LockedMemory (task c)) c in
  let c := configureULimit "sigpending" (Task.PendingSignals (task c)) c in
  configureULimit "msgqueue" (Task.MessageQueue (task c)) c.

Definition configureTmpFs (c : cookie) : cookie :=
  let tmpFsSize := Task.TmpFsSize (task c) in
  let conf := Driver.conf (drv c) in
  if bool_decide (tmpFsSize = 0) && negb (Driver.EnableReadOnlyRootFs conf) then c
  else
    let tmpFsOption :=
      if decide (tmpFsSize <> 0) then
        if decide (Driver.MaxTmpFsInodes conf <> 0) then
          "size=" +:+ Go.fmt_int tmpFsSize +:+ "m,nr_inodes="
            +:+ Go.fmt_int (Driver.MaxTmpFsInodes conf)
        else "size=" +:+ Go.fmt_int tmpFsSize +:+ "m"
      else "" in
    on_hostOpts (fun h =>
      HostConfig.with_Tmpfs (map_set "/tmp" tmpFsOption (HostConfig.Tmpfs h)) h) c.

Definition configureIOFS (c : cookie) : cookie :=
  let path := Task.UDSDockerPath (task c) in
  if decide (path = "") then c
  else
    let bind := path +:+ ":" +:+ Task.UDSDockerDest (task c) in
    on_hostOpts (fun h => HostConfig.with_Binds (HostConfig.Binds h ++ [bind]) h) c.

Definition configureVolumes (c : cookie) : cookie :=
  if decide (length (Task.Volumes (task c)) = 0%nat) then c
  else
    fold_left
      (fun c (mapping : string * string) =>
         let hostDir := mapping.1 in
         let containerDir := mapping.2 in
         let c := on_opts (fun o =>
                    Config.with_Volumes
                      (Some ({[containerDir]} ∪ default ∅ (Config.Volumes o))) o) c in
         let mapn := hostDir +:+ ":" +:+ containerDir in
         on_hostOpts (fun h => HostConfig.with_Binds (HostConfig.Binds h ++ [mapn]) h) c)
      (Task.Volumes (task c)) c.

Definition configureCPU (c : cookie) : cookie :=
  if decide (Task.CPUs (task c) = 0) then c
  else
    let quota := Go.int64 (Go.mul_uint64 (Task.CPUs (task c)) 100) in
    let period := Go.int64 100000 in
    on_hostOpts (fun h =>
      HostConfig.with_CPUPeriod period (HostConfig.with_CPUQuota quota h)) c.

Definition configureWorkDir (c : cookie) : cookie :=
  let wd := Task.WorkDir (task c) in
  if decide (wd = "") then c else on_opts (Config.with_WorkingDir wd) c.

Definition set_NetworkMode (mode : string) : cookie -> cookie :=
  on_hostOpts (HostConfig.with_NetworkMode mode).

(** Each early [return] of the source ends the step here as well; [picked]
    tells whether the pool block returned. *)
Definition configureNetwork : M R unit :=
  c ← getck;
  if decide (HostConfig.NetworkMode (hostOpts c) <> "") then mret tt
  else if Task.DisableNet (task c) then modck (set_NetworkMode "none")
  else
    picked ← (if Driver.pool (drv c) then
                '(id, err) ← call Call.AllocPoolId Collab.AllocPoolId;
                if decide (id <> "") then
                  modck (fun c => with_poolId id (set_NetworkMode ("container:" +:+ id) c));;
                  mret true
                else mret false
              else mret false);
    if (picked : bool) then mret tt
    else
      id ← call Call.AllocNetwork Collab.AllocNetwork;
      if decide (id <> "") then modck (fun c => with_netId id (set_NetworkMode id c))
      else mret tt.

Definition configureHostname (c : cookie) : cookie :=
  if decide (HostConfig.NetworkMode (hostOpts c) <> "") then c
  else on_opts (Config.with_Hostname (Driver.hostname (drv c))) c.

Definition configureCmd (c : cookie) : cookie :=
  if decide (Task.Command (task c) = "") then c
  else on_opts (Config.with_Cmd (Go.Fields (Task.Command (task c)))) c.

(** [iter] is the order in which the [range] over [EnvVars] visits the
    entries in this run. *)
Definition configureEnv (iter : list (string * string)) (c : cookie) : cookie :=
  if decide (size (Task.EnvVars (task c)) = 0%nat) then c
  else
    fold_left
      (fun c (kv : string * string) =>
         on_opts (fun o => Config.with_Env (Config.Env o ++ [kv.1 +:+ "=" +:+ kv.2]) o) c)
      iter c.

Definition configureSecurity (c : cookie) : cookie :=
  if Driver.DisableUnprivilegedContainers (Driver.conf (drv c)) then c
  else
    let c := on_opts (Config.with_User FnDockerUser) c in
    let c := on_hostOpts (HostConfig.with_CapDrop ["all"]) c in
    on_hostOpts (HostConfig.with_SecurityOpt ["no-new-privileges:true"]) c.

(** The steps, for a caller to put in sequence.  The environment step
    carries the order its [range] takes in this run. *)
Inductive step : Type :=
  | stepImage | stepLabels | stepLogger | stepMem | stepFsSize | stepPIDs | stepULimits
  | stepTmpFs | stepIOFS | stepVolumes | stepCPU | stepWorkDir | stepNetwork | stepHostname
  | stepCmd | stepEnv (iter : list (string * string)) | stepSecurity.

Definition run_step (st : step) : M R unit :=
  match st with
  | stepImage => modck configureImage
  | stepLabels => modck configureLabels
  | stepLogger => modck configureLogger
  | stepMem => modck configureMem
  | stepFsSize => modck configureFsSize
  | stepPIDs => modck configurePIDs
  | stepULimits => modck configureULimits
  | stepTmpFs => modck configureTmpFs
  | stepIOFS => modck configureIOFS
  | stepVolumes => modck configureVolumes
  | stepCPU => modck configureCPU
  | stepWorkDir => modck configureWorkDir
  | stepNetwork => configureNetwork
  | stepHostname => modck configureHostname
  | stepCmd => modck configureCmd
  | stepEnv iter => modck (configureEnv iter)
  | stepSecurity => modck configureSecurity
  end.

#[global] Instance step_eq_dec : EqDecision step.
Proof. solve_decision. Defined.

Fixpoint run_steps (l : list step) : M R unit :=
  match l with
  | [] => mret tt
  | st :: l' => run_step st;; run_steps l'
  end.

(** Modelled from the spec: the driver's constructor of cookies
    ([CreateCookie], in the driver's own file) is not part of the source at
    hand.  The spec has the cookie created when a task is accepted, with no
    grant, no image record and no container. *)
Definition newCookie (t : Task.t) (d : Driver.t) : cookie :=
  {| poolId := ""; netId := ""; opts := zeroConfig; hostOpts := zeroHostConfig;
     task := t; drv := d; imgReg := ""; image := None; containerCreated := false |}.

(** Modelled from the spec: the order in which that constructor runs the
    steps, "a fixed, ordered sequence": Image, Labels, Logging, Memory,
    Ephemeral storage size, Process count limit, Soft ulimits, Temporary
    filesystem, Unix-domain-socket bind mount, Volumes, CPU, Working
    directory, Network, Hostname, Command, Environment, Security. *)
Definition specOrder (iter : list (string * string)) : list step :=
  [stepImage; stepLabels; stepLogger; stepMem; stepFsSize; stepPIDs; stepULimits;
   stepTmpFs; stepIOFS; stepVolumes; stepCPU; stepWorkDir; stepNetwork; stepHostname;
   stepCmd; stepEnv iter; stepSecurity].

Definition configure (iter : list (string * string)) : M R unit :=
  run_steps (specOrder iter).

End Configure.

(** ** The methods of [drivers.Cookie] *)

Section Methods.
Context {R : Type} `{!Collab.t R}.

Definition Close : M R (option error) :=
  c ← getck;
  err ← (if containerCreated c then
           call (Call.RemoveContainer (Task.Id (task c)) true true)
                (Collab.RemoveContainer (Task.Id (task c)) true true)
         else mret None);
  (if bool_decide (poolId c <> "") && Driver.pool (drv c) then
     call (Call.FreePoolId (poolId c)) (Collab.FreePoolId (poolId c))
   else mret tt);;
  (if decide (netId c <> "") then
     call (Call.FreeNetwork (netId c)) (Collab.FreeNetwork (netId c))
   else mret tt);;
  (match image c with
   | Some img =>
       if Driver.imgCache (drv c) then call (Call.MarkFree img) (Collab.MarkFree img)
       else mret tt
   | None => mret tt
   end);;
  mret err.

Definition Run : M R (Collab.WaitResult * option error) :=
  c ← getck;
  call (Call.run (task c)) (Collab.run (task c)).

Definition Freeze : M R (option error) :=
  c ← getck;
  call (Call.PauseContainer (Task.Id (task c))) (Collab.PauseContainer (Task.Id (task c))).

Definition Unfreeze : M R (option error) :=
  c ← getck;
  call (Call.UnpauseContainer (Task.Id (task c)))
       (Collab.UnpauseContainer (Task.Id (task c))).

Definition authImage : M R (AuthConfig.t * option error) :=
  c ← getck;
  let config := Collab.findRegistryConfig (imgReg c) (Driver.auths (drv c)) in
  if Task.Auther (task c) then
    '(authConfig, err) ← call (Call.DockerAuth (Task.Image (task c)))
                               (Collab.DockerAuth (Task.Image (task c)));
    match err with
    | Some e => mret (config, Some e)
    | None => mret (default config authConfig, None)
    end
  else mret (config, None).

(** The image record built from an inspected image. *)
Definition cachedImage (img : ImageInspect.t) : CachedImage.t :=
  {| CachedImage.ID := ImageInspect.ID img;
     CachedImage.ParentID := ImageInspect.Parent img;
     CachedImage.RepoTags := ImageInspect.RepoTags img;
     CachedImage.Size := Go.uint64 (ImageInspect.Size img) |}.

(** [img.Config != nil && len(img.Config.Volumes) > 0]. *)
Definition hasVolumes (img : ImageInspect.t) : bool :=
  match ImageInspect.Config img with
  | Some cfg => bool_decide (0 < size (default ∅ (Config.Volumes cfg)))%nat
  | None => false
  end.

Definition ValidateImage : M R (bool * option error) :=
  c ← getck;
  match image c with
  | Some _ => mret (false, None)
  | None =>
      '(img, err) ← call (Call.ImageInspectWithRaw (Task.Image (task c)))
                          (Collab.ImageInspectWithRaw (Task.Image (task c)));
      if decide (err = Some ErrNoSuchImage) then mret (true, None)
      else
        match err with
        | Some e => mret (false, Some e)
        | None =>
            let err :=
              if negb (Driver.ImageEnableVolume (Driver.conf (drv c))) && hasVolumes img
              then Some ErrImageWithVolume else None in
            let ci := cachedImage img in
            modck (with_image (Some ci));;
            (if Driver.imgCache (drv c) then
               if decide (err = Some ErrImageWithVolume)
               then call (Call.Update ci) (Collab.Update ci)
               else call (Call.MarkBusy ci) (Collab.MarkBusy ci)
             else mret tt);;
            mret (false, err)
        end
  end.

Definition PullImage : M R (option error) :=
  c ← getck;
  match image c with
  | Some _ => mret None
  | None =>
      '(cfg, err) ← authImage;
      match err with
      | Some e => mret (Some e)
      | None =>
          call (Call.PullImage cfg (Task.Image (task c)))
               (Collab.PullImage cfg (Task.Image (task c)))
      end
  end.

Definition CreateContainer : M R (option error) :=
  c ← getck;
  match image c with
  | None => fatal                       (* "invalid usage: image not validated" *)
  | Some _ =>
      if containerCreated c then mret None
      else
        err ← call (Call.ContainerCreate (opts c) (hostOpts c) (Task.Id (task c)))
                   (Collab.ContainerCreate (opts c) (hostOpts c) (Task.Id (task c)));
        modck (with_containerCreated true);;
        if decide (err = Some ErrNoSuchImage) then mret (Some ErrCallTimeoutServerBusy)
        else mret err
  end.

(** The methods a caller can invoke on a cookie, and one invocation with
    its result dropped. *)
Inductive method : Type :=
  | mValidateImage | mPullImage | mCreateContainer | mRun | mFreeze | mUnfreeze | mClose.

Definition invoke (m : method) : M R unit :=
  match m with
  | mValidateImage => ValidateImage;; mret tt
  | mPullImage => PullImage;; mret tt
  | mCreateContainer => CreateContainer;; mret tt
  | mRun => Run;; mret tt
  | mFreeze => Freeze;; mret tt
  | mUnfreeze => Unfreeze;; mret tt
  | mClose => Close;; mret tt
  end.

(** The states a cookie passes through: it starts with no container
    created, and changes by calls of its methods that return. *)
Inductive reachable : State R -> Prop :=
  | reach_init (s : State R) :
      containerCreated (ck s) = false -> calls s = [] -> reachable s
  | reach_step (s s' : State R) (m : method) :
      reachable s -> invoke m s = Done tt s' -> reachable s'.

End Methods.

(** ** An in-memory set of collaborators

    Modelled from the spec: the docker client, the prefork pool, the network
    pool, the image cache and the image puller are not part of the source at
    hand; the spec lists their interfaces (inspect-image, create, remove,
    pause, unpause; allocPoolId, freePoolId; allocNetwork, freeNetwork;
    markBusy, markFree, update; pullImage).  This stand-in keeps the images
    present, the images a pull can fetch, the containers that exist and the
    free grants in lists, and is used to run the cookie on concrete inputs. *)

Module Mem.

Record t : Type := mk {
  images : list (string * ImageInspect.t);    (* present locally, by reference *)
  registry : list (string * ImageInspect.t);  (* what a pull can fetch *)
  containers : list string;                   (* names of the containers that exist *)
  createErr : option error;                   (* the daemon's answer to create, if it refuses *)
  poolIds : list string;                      (* free prefork containers *)
  networks : list string;                     (* free networks *)
  busy : list string                          (* ids of the images marked busy *)
}.

Fixpoint find {A} (k : string) (l : list (string * A)) : option A :=
  match l with
  | [] => None
  | (k', a) :: l' => if decide (k = k') then Some a else find k l'
  end.

Definition mem (k : string) (l : list string) : bool := bool_decide (k ∈ l).

Fixpoint remove1 (k : string) (l : list string) : list string :=
  match l with
  | [] => []
  | k' :: l' => if decide (k = k') then l' else k' :: remove1 k l'
  end.

Definition zeroImage : ImageInspect.t := ImageInspect.mk "" "" [] 0 None.

Definition inspect (ref : string) (w : t) : (ImageInspect.t * option error) * t :=
  match find ref (images w) with
  | Some img => ((img, None), w)
  | None => ((zeroImage, Some ErrNoSuchImage), w)
  end.

Definition create (_ : Config.t) (_ : HostConfig.t) (name : string) (w : t)
    : option error * t :=
  match createErr w with
  | Some e => (Some e, w)
  | None =>
      if mem name (containers w) then (Some (ErrOther "Conflict"), w)
      else (None, mk (images w) (registry w) (name :: containers w) (createErr w)
                     (poolIds w) (networks w) (busy w))
  end.

Definition remove (id : string) (_ _ : bool) (w : t) : option error * t :=
  if mem id (containers w) then
    (None, mk (images w) (registry w) (remove1 id (containers w)) (createErr w)
              (poolIds w) (networks w) (busy w))
  else (Some (ErrOther "No such container"), w).

Definition pause (id : string) (w : t) : option error * t :=
  if mem id (containers w) then (None, w) else (Some (ErrOther "No such container"), w).

Definition allocPoolId (w : t) : (string * option error) * t :=
  match poolIds w with
  | id :: l => ((id, None), mk (images w) (registry w) (containers w) (createErr w)
                               l (networks w) (busy w))
  | [] => (("", Some (ErrOther "pool exhausted")), w)
  end.

Definition freePoolId (id : string) (w : t) : unit * t :=
  (tt, mk (images w) (registry w) (containers w) (createErr w)
          (id :: poolIds w) (networks w) (busy w)).

Definition allocNetwork (w : t) : string * t :=
  match networks w with
  | id :: l => (id, mk (images w) (registry w) (containers w) (createErr w)
                       (poolIds w) l (busy w))
  | [] => ("", w)
  end.

Definition freeNetwork (id : string) (w : t) : unit * t :=
  (tt, mk (images w) (registry w) (containers w) (createErr w)
          (poolIds w) (id :: networks w) (busy w)).

Definition markBusy (img : CachedImage.t) (w : t) : unit * t :=
  (tt, mk (images w) (registry w) (containers w) (createErr w)
          (poolIds w) (networks w) (CachedImage.ID img :: busy w)).

Definition markFree (img : CachedImage.t) (w : t) : unit * t :=
  (tt, mk (images w) (registry w) (containers w) (createErr w)
          (poolIds w) (networks w) (remove1 (CachedImage.ID img) (busy w))).

Definition update (_ : CachedImage.t) (w : t) : unit * t := (tt, w).

Definition pull (_ : AuthConfig.t) (ref : string) (w : t) : option error * t :=
  match find ref (registry w) with
  | Some img => (None, mk ((ref, img) :: images w) (registry w) (containers w)
                          (createErr w) (poolIds w) (networks w) (busy w))
  | None => (Some (ErrOther "pull failed"), w)
  end.

#[global] Instance collab : Collab.t t :=
  {| Collab.WaitResult := string;
     Collab.FnAgentClassifierLabel := "fn-agent-classifier";
     Collab.FnAgentInstanceLabel := "fn-agent-instance";
     Collab.ParseImage := fun image => ("", image, "");
     Collab.findRegistryConfig := fun _ _ => AuthConfig.mk "" "" "";
     Collab.ImageInspectWithRaw := inspect;
     Collab.ContainerCreate := create;
     Collab.RemoveContainer := remove;
     Collab.PauseContainer := pause;
     Collab.UnpauseContainer := pause;
     Collab.AllocPoolId := allocPoolId;
     Collab.FreePoolId := freePoolId;
     Collab.AllocNetwork := allocNetwork;
     Collab.FreeNetwork := freeNetwork;
     Collab.MarkBusy := markBusy;
     Collab.MarkFree := markFree;
     Collab.Update := update;
     Collab.PullImage := pull;
     Collab.DockerAuth := fun _ w => ((None, None), w);
     Collab.run := fun _ w => (("success", None), w) |}.

End Mem.

(** ** Concrete tasks, drivers and images *)

Module Sample.

Definition conf : Driver.Conf :=
  {| Driver.ContainerLabelTag := ""; Driver.EnableReadOnlyRootFs := false;
     Driver.MaxTmpFsInodes := 0; Driver.DisableUnprivilegedContainers := false;
     Driver.ImageEnableVolume := false |}.

Definition driver : Driver.t :=
  {| Driver.conf := conf; Driver.pool := true; Driver.imgCache := true;
     Driver.hostname := "runner-1"; Driver.instanceId := "i-1"; Driver.auths := ∅ |}.

(** [image="busy:1"], [memory=512], [cpus=800], the task of the spec's scenario. *)
Definition busyTask : Task.t :=
  {| Task.Id := "call-1"; Task.Image := "busy:1"; Task.Command := "";
     Task.EnvVars := ∅; Task.Volumes := [];
     Task.Memory := 512; Task.CPUs := 800; Task.FsSize := 0; Task.TmpFsSize := 0;
     Task.PIDs := 0;
     Task.OpenFiles := None; Task.LockedMemory := None;
     Task.PendingSignals := None; Task.MessageQueue := None;
     Task.WorkDir := ""; Task.LoggerConfig := LoggerConfig.mk "" [];
     Task.DisableNet := false; Task.UDSDockerPath := ""; Task.UDSDockerDest := "";
     Task.Auther := false |}.

Definition with_limits (memory cpus : Z) (t : Task.t) : Task.t :=
  {| Task.Id := Task.Id t; Task.Image := Task.Image t; Task.Command := Task.Command t;
     Task.EnvVars := Task.EnvVars t; Task.Volumes := Task.Volumes t;
     Task.Memory := memory; Task.CPUs := cpus; Task.FsSize := Task.FsSize t;
     Task.TmpFsSize := Task.TmpFsSize t; Task.PIDs := Task.PIDs t;
     Task.OpenFiles := Task.OpenFiles t; Task.LockedMemory := Task.LockedMemory t;
     Task.PendingSignals := Task.PendingSignals t; Task.MessageQueue := Task.MessageQueue t;
     Task.WorkDir := Task.WorkDir t; Task.LoggerConfig := Task.LoggerConfig t;
     Task.DisableNet := Task.DisableNet t; Task.UDSDockerPath := Task.UDSDockerPath t;
     Task.UDSDockerDest := Task.UDSDockerDest t; Task.Auther := Task.Auther t |}.

Definition with_ulimits (nofile memlock sigpending msgqueue : option Z) (t : Task.t)
    : Task.t :=
  {| Task.Id := Task.Id t; Task.Image := Task.Image t; Task.Command := Task.Command t;
     Task.EnvVars := Task.EnvVars t; Task.Volumes := Task.Volumes t;
     Task.Memory := Task.Memory t; Task.CPUs := Task.CPUs t; Task.FsSize := Task.FsSize t;
     Task.TmpFsSize := Task.TmpFsSize t; Task.PIDs := Task.PIDs t;
     Task.OpenFiles := nofile; Task.LockedMemory := memlock;
     Task.PendingSignals := sigpending; Task.MessageQueue := msgqueue;
     Task.WorkDir := Task.WorkDir t; Task.LoggerConfig := Task.LoggerConfig t;
     Task.DisableNet := Task.DisableNet t; Task.UDSDockerPath := Task.UDSDockerPath t;
     Task.UDSDockerDest := Task.UDSDockerDest t; Task.Auther := Task.Auther t |}.

Definition with_env (env : gmap string string) (t : Task.t) : Task.t :=
  {| Task.Id := Task.Id t; Task.Image := Task.Image t; Task.Command := Task.Command t;
     Task.EnvVars := env; Task.Volumes := Task.Volumes t;
     Task.Memory := Task.Memory t; Task.CPUs := Task.CPUs t; Task.FsSize := Task.FsSize t;
     Task.TmpFsSize := Task.TmpFsSize t; Task.PIDs := Task.PIDs t;
     Task.OpenFiles := Task.OpenFiles t; Task.LockedMemory := Task.LockedMemory t;
     Task.PendingSignals := Task.PendingSignals t; Task.MessageQueue := Task.MessageQueue t;
     Task.WorkDir := Task.WorkDir t; Task.LoggerConfig := Task.LoggerConfig t;
     Task.DisableNet := Task.DisableNet t; Task.UDSDockerPath := Task.UDSDockerPath t;
     Task.UDSDockerDest := Task.UDSDockerDest t; Task.Auther := Task.Auther t |}.

(** The image ["busy:1"], without and with a declared volume. *)
Definition busyImage : ImageInspect.t :=
  ImageInspect.mk "sha256:b1" "" ["busy:1"] 1024 (Some zeroConfig).

Definition volumeImage : ImageInspect.t :=
  ImageInspect.mk "sha256:b1" "" ["busy:1"] 1024
    (Some (Config.with_Volumes (Some {["/data"]}) zeroConfig)).

(** Collaborators with nothing present and nothing to grant. *)
Definition empty : Mem.t := Mem.mk [] [] [] None [] [] [].

(** The image can be pulled but is not present yet. *)
Definition pullable : Mem.t := Mem.mk [] [("busy:1", busyImage)] [] None [] [] [].

(** The image present declares a volume. *)
Definition withVolume : Mem.t := Mem.mk [("busy:1", volumeImage)] [] [] None [] [] [].

(** A fresh cookie for the task, before any call. *)
Definition start (w : Mem.t) : State Mem.t := mkState (newCookie busyTask driver) w [].

End Sample.

(** ** Definitions used in the statements *)

(** What the spec asks of one ulimit: present and within the signed 64-bit
    range, it is applied with soft and hard limits equal; else omitted. *)
Definition spec_ulimit (name : string) (value : option Z) : list Ulimit.t :=
  match value with
  | Some v => if decide (v <= Go.MaxInt64) then [Ulimit.mk name v v] else []
  | None => []
  end.

(** The four ulimits with the values [configureULimits] reads for them. *)
Definition ulimitTable (t : Task.t) : list (string * option Z) :=
  [("nofile", Task.OpenFiles t); ("memlock", Task.LockedMemory t);
   ("sigpending", Task.PendingSignals t); ("msgqueue", Task.MessageQueue t)].

Definition add_ulimits (l : list Ulimit.t) : cookie -> cookie :=
  on_hostOpts (fun h => HostConfig.with_Ulimits (HostConfig.Ulimits h ++ l) h).

(** The entries [configureULimit] appends for one ulimit, and
    [configureULimits] for the four. *)
Definition code_ulimit (name : string) (value : option Z) : list Ulimit.t :=
  match value with
  | Some v =>
      if decide (Go.int64 v < 0) then [] else [Ulimit.mk name (Go.int64 v) (Go.int64 v)]
  | None => []
  end.

Definition code_ulimits (t : Task.t) : list Ulimit.t :=
  code_ulimit "nofile" (Task.OpenFiles t) ++ code_ulimit "memlock" (Task.LockedMemory t) ++
  code_ulimit "sigpending" (Task.PendingSignals t) ++
  code_ulimit "msgqueue" (Task.MessageQueue t).

(** The network mode of the launch configuration, and the exclusion of
    network mode and hostname. *)
Definition mode_of (c : cookie) : string := HostConfig.NetworkMode (hostOpts c).

Definition mode_or_hostname_unset (c : cookie) : Prop :=
  HostConfig.NetworkMode (hostOpts c) = "" \/ Config.Hostname (opts c) = "".

(** The cookie with its environment list replaced. *)
Definition set_env (l : list string) : cookie -> cookie :=
  on_opts (Config.with_Env l).

(** A step that writes neither the task, nor the driver, nor the network
    mode, nor the hostname; a step that neither reads nor writes the
    environment list. *)
Definition frame (f : cookie -> cookie) : Prop :=
  forall c, task (f c) = task c /\ drv (f c) = drv c /\ mode_of (f c) = mode_of c /\
            Config.Hostname (opts (f c)) = Config.Hostname (opts c).

Definition env_blind (f : cookie -> cookie) : Prop :=
  forall c, Config.Env (opts (f c)) = Config.Env (opts c) /\
            forall e, f (set_env e c) = set_env e (f c).

(** Two steps that are the same but for the order the environment step's
    [range] takes. *)
Inductive same_step : step -> step -> Prop :=
  | same_env (iter1 iter2 : list (string * string)) :
      same_step (stepEnv iter1) (stepEnv iter2)
  | same_other (st : step) : same_step st st.

Section StepFun.
Context {R : Type} `{!Collab.t R}.

(** Every step but the network step is a function of the cookie. *)
Definition step_fun (st : step) : cookie -> cookie :=
  match st with
  | stepImage => configureImage
  | stepLabels => configureLabels
  | stepLogger => configureLogger
  | stepMem => configureMem
  | stepFsSize => configureFsSize
  | stepPIDs => configurePIDs
  | stepULimits => configureULimits
  | stepTmpFs => configureTmpFs
  | stepIOFS => configureIOFS
  | stepVolumes => configureVolumes
  | stepCPU => configureCPU
  | stepWorkDir => configureWorkDir
  | stepNetwork => fun c => c
  | stepHostname => configureHostname
  | stepCmd => configureCmd
  | stepEnv iter => configureEnv iter
  | stepSecurity => configureSecurity
  end.

End StepFun.

(** The entry of one variable, and the cookie with entries appended. *)
Definition envEntry (kv : string * string) : string := kv.1 +:+ "=" +:+ kv.2.

Definition add_env (l : list string) : cookie -> cookie :=
  on_opts (fun o => Config.with_Env (Config.Env o ++ l) o).

(** The calls one [Close] makes, read off the cookie. *)
Definition closeCalls (c : cookie) : list Call.t :=
  (if containerCreated c then [Call.RemoveContainer (Task.Id (task c)) true true] else []) ++
  (if bool_decide (poolId c <> "") && Driver.pool (drv c)
   then [Call.FreePoolId (poolId c)] else []) ++
  (if decide (netId c <> "") then [Call.FreeNetwork (netId c)] else []) ++
  match image c with
  | Some img => if Driver.imgCache (drv c) then [Call.MarkFree img] else []
  | None => []
  end.

(** ** Runs on the in-memory collaborators *)

(** A task environment with two variables. *)
Definition twoVars : gmap string string := <["A" := "1"]> (<["B" := "2"]> ∅).

Module Trace.
Import Sample.

Definition state_of {A : Type} (o : Outcome Mem.t A) : State Mem.t :=
  match o with Done _ s => s | Fatal s => s end.

(** The image is missing and can be pulled: validate, pull, validate. *)
Definition missing : State Mem.t := state_of (ValidateImage (start pullable)).
Definition pulled : State Mem.t := state_of (PullImage missing).
Definition validated : State Mem.t := state_of (ValidateImage pulled).

(** The image is present and the pool grants ["p1"]: configure, validate,
    create. *)
Definition granting : Mem.t := Mem.mk [("busy:1", busyImage)] [] [] None ["p1"] [] [].
Definition created : State Mem.t :=
  state_of ((configure [];; ValidateImage;; CreateContainer) (start granting)).

(** The same, with a daemon that refuses to create containers: configure,
    validate. *)
Definition refusingGranting : Mem.t :=
  Mem.mk [("busy:1", busyImage)] [] []
         (Some (ErrOther "no space left on device")) ["p1"] [] [].
Definition beforeCreate : State Mem.t :=
  state_of ((configure [];; ValidateImage) (start refusingGranting)).

Definition busyRecord : CachedImage.t := CachedImage.mk "sha256:b1" "" ["busy:1"] 1024.
End Trace.


(** ** Definitions used in the further properties *)

Section Runs.
Context {R : Type} `{!Collab.t R}.

(** A caller's sequence of method calls, each with its result dropped. *)
Fixpoint invoke_all (ms : list method) : M R unit :=
  match ms with
  | [] => mret tt
  | m :: ms' => invoke m;; invoke_all ms'
  end.

End Runs.

(** The number of create calls among the calls made. *)
Definition is_create (e : Call.t) : bool :=
  match e with Call.ContainerCreate _ _ _ => true | _ => false end.

Fixpoint creates (l : list Call.t) : nat :=
  match l with
  | [] => 0
  | e :: l' => (if is_create e then 1 else 0) + creates l'
  end%nat.

(** What of the cookie the configuration steps write and the life cycle
    reads: the launch configuration, the grants, the registry. *)
Definition configured (c : cookie) : Config.t * HostConfig.t * Task.t * Driver.t *
                                     string * string * string :=
  (opts c, hostOpts c, task c, drv c, poolId c, netId c, imgReg c).

(** A cookie as the configuration steps find it: no grant and no network
    mode yet. *)
Definition ungranted (c : cookie) : Prop :=
  poolId c = "" /\ netId c = "" /\ HostConfig.NetworkMode (hostOpts c) = "".

(** A walk through the life cycle on the in-memory collaborators: the image
    is present and the pool can grant ["p1"]. *)
Module Walk.
Definition s0 : State Mem.t := Sample.start Trace.granting.
Definition s1 : State Mem.t := Trace.state_of (invoke mValidateImage s0).
Definition s2 : State Mem.t := Trace.state_of (invoke mCreateContainer s1).
Definition s3 : State Mem.t := Trace.state_of (invoke mClose s2).
Definition all : list method :=
  [mValidateImage; mPullImage; mCreateContainer; mRun; mFreeze; mUnfreeze; mClose].

(** The same walk after the network step. *)
Definition s1n : State Mem.t := Trace.state_of (configureNetwork s0).
Definition s2n : State Mem.t :=
  Trace.state_of (invoke_all [mValidateImage; mCreateContainer] s1n).
End Walk.

(** The calls that repeat a step already taken: validate, pull, create. *)
Definition is_repeat (m : method) : Prop :=
  m = mValidateImage \/ m = mPullImage \/ m = mCreateContainer.

(** The bind mount entry of one volume mapping. *)
Definition bindEntry (mapping : string * string) : string :=
  mapping.1 +:+ ":" +:+ mapping.2.

(** The resource limits and the security settings of the launch
    configuration. *)
Definition limits_of (c : cookie) : Z * Z * Z * option Z * Z * Z * option Z :=
  let h := hostOpts c in
  (HostConfig.Memory h, HostConfig.MemorySwap h, HostConfig.KernelMemory h,
   HostConfig.MemorySwappiness h, HostConfig.CPUQuota h, HostConfig.CPUPeriod h,
   HostConfig.PidsLimit h).

Definition security_of (c : cookie) : string * list string * list string :=
  (Config.User (opts c), HostConfig.CapDrop (hostOpts c), HostConfig.SecurityOpt (hostOpts c)).

(** The steps that assign their fields, and the steps that append to a
    list. *)
Definition assigning : list step :=
  [stepImage; stepLabels; stepLogger; stepMem; stepFsSize; stepPIDs; stepTmpFs; stepCPU;
   stepWorkDir; stepHostname; stepCmd; stepSecurity].

(** A task and a driver with most settings in use, and in-memory
    collaborators whose authenticator refuses, or answers with credentials
    of its own. *)
Module Rich.

Definition conf : Driver.Conf :=
  {| Driver.ContainerLabelTag := "blue"; Driver.EnableReadOnlyRootFs := true;
     Driver.MaxTmpFsInodes := 1024; Driver.DisableUnprivilegedContainers := false;
     Driver.ImageEnableVolume := false |}.

Definition driver : Driver.t :=
  {| Driver.conf := conf; Driver.pool := true; Driver.imgCache := true;
     Driver.hostname := "runner-1"; Driver.instanceId := "i-1"; Driver.auths := ∅ |}.

Definition task : Task.t :=
  {| Task.Id := "call-2"; Task.Image := "busy:1"; Task.Command := "/bin/sh -c  date";
     Task.EnvVars := twoVars; Task.Volumes := [("/host/a", "/a"); ("/host/b", "/b")];
     Task.Memory := 512; Task.CPUs := 800; Task.FsSize := 64; Task.TmpFsSize := 16;
     Task.PIDs := 2 ^ 63 + 5;
     Task.OpenFiles := Some 1024; Task.LockedMemory := None;
     Task.PendingSignals := None; Task.MessageQueue := None;
     Task.WorkDir := "/work";
     Task.LoggerConfig := LoggerConfig.mk "tcp://logs:514" [("app", "a1"); ("fn", "f1")];
     Task.DisableNet := false; Task.UDSDockerPath := "/iofs/1"; Task.UDSDockerDest := "/tmp/iofs";
     Task.Auther := true |}.

Definition cookie0 : cookie := newCookie task driver.

Definition start (w : Mem.t) : State Mem.t := mkState cookie0 w [].

Definition own : AuthConfig.t := AuthConfig.mk "user" "secret" "registry.local".

Definition denying : Collab.t Mem.t :=
  {| Collab.WaitResult := string;
     Collab.FnAgentClassifierLabel := "fn-agent-classifier";
     Collab.FnAgentInstanceLabel := "fn-agent-instance";
     Collab.ParseImage := fun image => ("", image, "");
     Collab.findRegistryConfig := fun _ _ => AuthConfig.mk "" "" "";
     Collab.ImageInspectWithRaw := Mem.inspect;
     Collab.ContainerCreate := Mem.create;
     Collab.RemoveContainer := Mem.remove;
     Collab.PauseContainer := Mem.pause;
     Collab.UnpauseContainer := Mem.pause;
     Collab.AllocPoolId := Mem.allocPoolId;
     Collab.FreePoolId := Mem.freePoolId;
     Collab.AllocNetwork := Mem.allocNetwork;
     Collab.FreeNetwork := Mem.freeNetwork;
     Collab.MarkBusy := Mem.markBusy;
     Collab.MarkFree := Mem.markFree;
     Collab.Update := Mem.update;
     Collab.PullImage := Mem.pull;
     Collab.DockerAuth := fun _ w => ((None, Some (ErrOther "unauthorized")), w);
     Collab.run := fun _ w => (("success", None), w) |}.

Definition answering : Collab.t Mem.t :=
  {| Collab.WaitResult := string;
     Collab.FnAgentClassifierLabel := "fn-agent-classifier";
     Collab.FnAgentInstanceLabel := "fn-agent-instance";
     Collab.ParseImage := fun image => ("", image, "");
     Collab.findRegistryConfig := fun _ _ => AuthConfig.mk "" "" "";
     Collab.ImageInspectWithRaw := Mem.inspect;
     Collab.ContainerCreate := Mem.create;
     Collab.RemoveContainer := Mem.remove;
     Collab.PauseContainer := Mem.pause;
     Collab.UnpauseContainer := Mem.pause;
     Collab.AllocPoolId := Mem.allocPoolId;
     Collab.FreePoolId := Mem.freePoolId;
     Collab.AllocNetwork := Mem.allocNetwork;
     Collab.FreeNetwork := Mem.freeNetwork;
     Collab.MarkBusy := Mem.markBusy;
     Collab.MarkFree := Mem.markFree;
     Collab.Update := Mem.update;
     Collab.PullImage := Mem.pull;
     Collab.DockerAuth := fun _ w => ((Some own, None), w);
     Collab.run := fun _ w => (("success", None), w) |}.

End Rich.

(** What a call to the runtime about the container has to carry on a
    cookie: the task's identifier, for a create the cookie's launch
    configuration, for a removal the force and remove-volumes flags. *)
Definition call_ok (c : cookie) (e : Call.t) : Prop :=
  match e with
  | Call.ContainerCreate o h name =>
      o = opts c /\ h = hostOpts c /\ name = Task.Id (task c)
  | Call.RemoveContainer id force removeVolumes =>
      id = Task.Id (task c) /\ force = true /\ removeVolumes = true
  | Call.PauseContainer id | Call.UnpauseContainer id => id = Task.Id (task c)
  | Call.ImageInspectWithRaw image | Call.PullImage _ image | Call.DockerAuth image =>
      image = Task.Image (task c)
  | Call.run t => t = task c
  | _ => True
  end.


(** * Properties *)

(** Closes [Task.wf] and range goals on concrete numbers. *)
Ltac in_range :=
  unfold Task.wf, Go.is_uint64, Go.is_uint64_ptr, Go.MaxInt64; cbn;
  repeat split; by vm_compute.

(** ** Conversions between [uint64] and [int64] *)

Lemma int64_small (z : Z) : 0 <= z <= Go.MaxInt64 -> Go.int64 z = z.
Proof.
  unfold Go.int64, Go.MaxInt64. intros Hz.
  rewrite Z.mod_small by lia. lia.
Qed.

Lemma int64_large (z : Z) : Go.MaxInt64 < z < 2 ^ 64 -> Go.int64 z = z - 2 ^ 64.
Proof.
  unfold Go.int64, Go.MaxInt64. intros Hz.
  replace (z + 2 ^ 63) with (z - 2 ^ 63 + 1 * 2 ^ 64) by lia.
  rewrite Z.mod_add by lia. rewrite Z.mod_small by lia. lia.
Qed.

Lemma int64_neg_iff (z : Z) : Go.is_uint64 z -> Go.int64 z < 0 <-> Go.MaxInt64 < z.
Proof.
  unfold Go.is_uint64. intros Hz.
  destruct (decide (z <= Go.MaxInt64)) as [Hle | Hgt].
  - rewrite int64_small by lia. lia.
  - rewrite int64_large by lia. unfold Go.MaxInt64 in *. lia.
Qed.

Lemma mul_uint64_small (a b : Z) : 0 <= a * b < 2 ^ 64 -> Go.mul_uint64 a b = a * b.
Proof. intros H. unfold Go.mul_uint64. by rewrite Z.mod_small. Qed.

(** ** Memory *)

(** C6, as amended: for a memory limit above 0 that fits a signed 64-bit
    integer, the memory step sets memory, memory+swap and kernel memory to
    the limit and swappiness to 0; for a limit of 0 it changes nothing. *)
Theorem configureMem_sets_limit (c : cookie) :
  (0 < Task.Memory (task c) <= Go.MaxInt64 ->
   let h := hostOpts (configureMem c) in
   HostConfig.Memory h = Task.Memory (task c) /\
   HostConfig.MemorySwap h = Task.Memory (task c) /\
   HostConfig.KernelMemory h = Task.Memory (task c) /\
   HostConfig.MemorySwappiness h = Some 0) /\
  (Task.Memory (task c) = 0 -> configureMem c = c).
Proof.
  split.
  - intros Hm. unfold configureMem.
    destruct (decide (Task.Memory (task c) = 0)) as [H0 | _]; [lia |].
    cbn. rewrite int64_small by lia. done.
  - intros H0. unfold configureMem. by rewrite decide_True.
Qed.

Lemma configureMem_sets_limit_witness :
  let c := newCookie Sample.busyTask Sample.driver in
  HostConfig.Memory (hostOpts (configureMem c)) = 512 /\
  HostConfig.MemorySwappiness (hostOpts (configureMem c)) = Some 0.
Proof.
  intros c.
  destruct (configureMem_sets_limit c) as [Hpos _].
  destruct Hpos as (Hm & _ & _ & Hs); [by vm_compute |].
  split; [exact Hm | exact Hs].
Defined.

(** C6 as stated fails: the limit [2^63] is a [uint64] above 0, and the
    memory field, a signed 64-bit integer, gets [-2^63]. *)
Lemma configureMem_wraps_large_limit :
  let c := newCookie (Sample.with_limits (2 ^ 63) 0 Sample.busyTask) Sample.driver in
  Task.wf (task c) /\ 0 < Task.Memory (task c) /\
  HostConfig.Memory (hostOpts (configureMem c)) = - 2 ^ 63 /\
  HostConfig.Memory (hostOpts (configureMem c)) <> Task.Memory (task c).
Proof.
  cbv zeta. split; [| split; [| split]].
  - in_range.
  - by vm_compute.
  - by vm_compute.
  - by vm_compute.
Qed.

(** ** CPU *)

(** C7, as amended: for a CPU value [V] above 0 such that [V * 100] fits a
    signed 64-bit integer, the CPU step sets the quota to [V * 100] and the
    period to 100000; the period is 100000 for every [V] above 0; for [V]
    of 0 the step changes nothing. *)
Theorem configureCPU_quota_period (c : cookie) :
  (0 < Task.CPUs (task c) -> Task.CPUs (task c) * 100 <= Go.MaxInt64 ->
   HostConfig.CPUQuota (hostOpts (configureCPU c)) = Task.CPUs (task c) * 100) /\
  (0 < Task.CPUs (task c) ->
   HostConfig.CPUPeriod (hostOpts (configureCPU c)) = 100000) /\
  (Task.CPUs (task c) = 0 -> configureCPU c = c).
Proof.
  unfold configureCPU. split; [| split].
  - intros Hv Hq. rewrite decide_False by lia. cbn.
    rewrite mul_uint64_small by (unfold Go.MaxInt64 in Hq; lia).
    apply int64_small. lia.
  - intros Hv. rewrite decide_False by lia. cbn. by vm_compute.
  - intros H0. by rewrite decide_True.
Qed.

Lemma configureCPU_quota_period_witness :
  let c := newCookie Sample.busyTask Sample.driver in
  HostConfig.CPUQuota (hostOpts (configureCPU c)) = 80000 /\
  HostConfig.CPUPeriod (hostOpts (configureCPU c)) = 100000.
Proof.
  intros c.
  destruct (configureCPU_quota_period c) as (Hq & Hp & _).
  split; [apply Hq; by vm_compute | apply Hp; by vm_compute].
Defined.

(** C7 as stated fails: for [V = 92233720368547759] the product [V * 100]
    is above the largest signed 64-bit integer and the quota is negative. *)
Lemma configureCPU_quota_wraps :
  let v := 92233720368547759 in
  let c := newCookie (Sample.with_limits 0 v Sample.busyTask) Sample.driver in
  Task.wf (task c) /\ 0 < Task.CPUs (task c) /\
  HostConfig.CPUQuota (hostOpts (configureCPU c)) = -9223372036854775716 /\
  HostConfig.CPUQuota (hostOpts (configureCPU c)) <> Task.CPUs (task c) * 100.
Proof.
  cbv zeta. split; [| split; [| split]].
  - in_range.
  - by vm_compute.
  - by vm_compute.
  - by vm_compute.
Qed.

(** ** The entries of the ulimit list *)

Lemma add_ulimits_nil (c : cookie) : add_ulimits [] c = c.
Proof.
  destruct c as [? ? ? h ? ? ? ? ?]. destruct h.
  unfold add_ulimits, on_hostOpts, with_hostOpts, HostConfig.with_Ulimits. cbn.
  by rewrite app_nil_r.
Qed.

Lemma add_ulimits_app (l1 l2 : list Ulimit.t) (c : cookie) :
  add_ulimits l2 (add_ulimits l1 c) = add_ulimits (l1 ++ l2) c.
Proof.
  unfold add_ulimits, on_hostOpts, with_hostOpts, HostConfig.with_Ulimits. cbn.
  by rewrite app_assoc.
Qed.

Lemma add_ulimits_task (l : list Ulimit.t) (c : cookie) : task (add_ulimits l c) = task c.
Proof. reflexivity. Qed.

Lemma configureULimit_spec (name : string) (value : option Z) (c : cookie) :
  Go.is_uint64_ptr value ->
  configureULimit name value c = add_ulimits (spec_ulimit name value) c.
Proof.
  intros Hv. unfold configureULimit, spec_ulimit.
  destruct value as [v |]; [| by rewrite add_ulimits_nil].
  cbn in Hv. pose proof (int64_neg_iff v Hv) as Hneg.
  destruct (decide (Go.int64 v < 0)) as [Hlt | Hge];
    destruct (decide (v <= Go.MaxInt64)) as [Hle | Hgt]; try lia.
  - by rewrite add_ulimits_nil.
  - rewrite int64_small by (unfold Go.is_uint64 in Hv; lia). reflexivity.
Qed.

Lemma configureULimits_spec (c : cookie) :
  Task.wf (task c) ->
  configureULimits c =
    add_ulimits (spec_ulimit "nofile" (Task.OpenFiles (task c)) ++
                 spec_ulimit "memlock" (Task.LockedMemory (task c)) ++
                 spec_ulimit "sigpending" (Task.PendingSignals (task c)) ++
                 spec_ulimit "msgqueue" (Task.MessageQueue (task c))) c.
Proof.
  intros (_ & _ & _ & _ & _ & Hf & Hl & Hp & Hq).
  unfold configureULimits. cbv zeta.
  rewrite (configureULimit_spec "nofile") by done.
  rewrite (configureULimit_spec "memlock") by done.
  rewrite (configureULimit_spec "sigpending") by done.
  rewrite (configureULimit_spec "msgqueue") by done.
  rewrite !add_ulimits_app, !add_ulimits_task. by rewrite <- ?app_assoc.
Qed.

Lemma in_spec_ulimit (u : Ulimit.t) (name : string) (value : option Z) :
  In u (spec_ulimit name value) ->
  exists v, value = Some v /\ v <= Go.MaxInt64 /\ u = Ulimit.mk name v v.
Proof.
  unfold spec_ulimit. destruct value as [v |]; [| done].
  destruct (decide (v <= Go.MaxInt64)); [| done].
  intros [<- | []]. eauto.
Qed.

(** ** The configuration steps, in any order *)

Lemma fold_left_preserves {A B C : Type} (g : A -> C) (f : A -> B -> A) (l : list B) (a : A) :
  (forall a b, g (f a b) = g a) -> g (fold_left f l a) = g a.
Proof.
  intros Hf. revert a. induction l as [| b l IH]; intros a; cbn; [done |].
  by rewrite IH, Hf.
Qed.

Lemma fold_left_commutes {A B : Type} (g : A -> A) (f : A -> B -> A) (l : list B) (a : A) :
  (forall a b, f (g a) b = g (f a b)) -> fold_left f l (g a) = g (fold_left f l a).
Proof.
  intros Hf. revert a. induction l as [| b l IH]; intros a; cbn; [done |].
  by rewrite Hf, IH.
Qed.

(** Splits on the tests of a step and settles what it leaves alone. *)
Ltac frame_step :=
  intros;
  repeat match goal with
         | |- context [decide ?P] => destruct (decide P)
         | |- context [bool_decide ?P] => destruct (bool_decide P)
         | |- context [if ?b then _ else _] => destruct b
         | |- context [match ?v with Some _ => _ | None => _ end] => destruct v
         end;
  cbn; try done.

(** Unfolds the monad's operations. *)
Ltac munfold := unfold mbind, mret, M_bind, M_ret, modck, getck, fatal; cbn.

Create HintDb steps.
#[local] Hint Unfold configureImage configureLabels configureLogger configureMem
  configureFsSize configurePIDs configureTmpFs configureIOFS configureCPU
  configureWorkDir configureHostname configureCmd configureSecurity configureULimit
  add_ulimits add_env set_env : steps.

Ltac open_step :=
  autounfold with steps; unfold on_opts, on_hostOpts, with_opts, with_hostOpts; cbn.

Lemma set_env_same (c : cookie) : set_env (Config.Env (opts c)) c = c.
Proof. destruct c as [? ? o ? ? ? ? ? ?]. by destruct o. Qed.

(** *** Environment entries *)

Lemma add_env_nil (c : cookie) : add_env [] c = c.
Proof.
  destruct c as [? ? o ? ? ? ? ? ?]. destruct o.
  unfold add_env, on_opts, with_opts, Config.with_Env. cbn.
  by rewrite app_nil_r.
Qed.

Lemma add_env_fold (iter : list (string * string)) (c : cookie) :
  fold_left
    (fun c (kv : string * string) =>
       on_opts (fun o => Config.with_Env (Config.Env o ++ [kv.1 +:+ "=" +:+ kv.2]) o) c)
    iter c = add_env (envEntry <$> iter) c.
Proof.
  revert c. induction iter as [| kv iter IH]; intros c; cbn.
  - by rewrite add_env_nil.
  - rewrite IH. unfold add_env, on_opts, with_opts, Config.with_Env. cbn.
    by rewrite <- app_assoc.
Qed.

(** With [iter] an order of the map's entries, the environment step appends
    one entry per variable, in that order. *)
Lemma configureEnv_spec (iter : list (string * string)) (c : cookie) :
  range_order (Task.EnvVars (task c)) iter ->
  configureEnv iter c = add_env (envEntry <$> iter) c.
Proof.
  unfold range_order, configureEnv. intros Hperm.
  destruct (decide (size (Task.EnvVars (task c)) = 0%nat)) as [Hempty | _].
  - apply map_size_empty_iff in Hempty. rewrite Hempty, map_to_list_empty in Hperm.
    apply Permutation_nil_r in Hperm. subst iter. by rewrite add_env_nil.
  - apply add_env_fold.
Qed.

(** *** What each step leaves alone *)

Lemma configureULimit_adds (name : string) (value : option Z) (c : cookie) :
  configureULimit name value c = add_ulimits (code_ulimit name value) c.
Proof.
  unfold configureULimit, code_ulimit. destruct value as [v |]; [| by rewrite add_ulimits_nil].
  destruct (decide (Go.int64 v < 0)); [by rewrite add_ulimits_nil | reflexivity].
Qed.

Lemma configureULimits_adds (c : cookie) :
  configureULimits c = add_ulimits (code_ulimits (task c)) c.
Proof.
  unfold configureULimits, code_ulimits. cbv zeta.
  rewrite !configureULimit_adds, !add_ulimits_app, !add_ulimits_task.
  by rewrite <- ?app_assoc.
Qed.

Section StepFacts.
Context {R : Type} `{!Collab.t R}.

Lemma frame_configureVolumes : frame configureVolumes.
Proof.
  intros c. unfold configureVolumes. destruct (decide _); [done |].
  repeat split;
    [ by apply (fold_left_preserves task) | by apply (fold_left_preserves drv)
    | by apply (fold_left_preserves mode_of)
    | by apply (fold_left_preserves (fun c => Config.Hostname (opts c))) ].
Qed.

Lemma frame_configureEnv (iter : list (string * string)) : frame (configureEnv iter).
Proof.
  intros c. unfold configureEnv.
  destruct (decide (size (Task.EnvVars (task c)) = 0%nat)); [done |].
  repeat split;
    [ by apply (fold_left_preserves task) | by apply (fold_left_preserves drv)
    | by apply (fold_left_preserves mode_of)
    | by apply (fold_left_preserves (fun c => Config.Hostname (opts c))) ].
Qed.

Lemma frame_configureULimits : frame configureULimits.
Proof. intros c. by rewrite configureULimits_adds. Qed.

Lemma run_step_fun (st : step) (s : State R) :
  st <> stepNetwork ->
  run_step st s = Done tt (mkState (step_fun st (ck s)) (world s) (calls s)).
Proof. by destruct st. Qed.

Lemma frame_step_fun (st : step) : st <> stepHostname -> frame (step_fun st).
Proof.
  destruct st; intros Hst; try done; cbn [step_fun];
    first [ apply frame_configureVolumes | apply frame_configureEnv
          | apply frame_configureULimits
          | intros c; unfold mode_of; open_step; frame_step ].
Qed.

Lemma env_blind_step_fun (st : step) :
  (forall iter, st <> stepEnv iter) -> env_blind (step_fun st).
Proof.
  destruct st; intros Hst; try (by destruct (Hst iter)); cbn [step_fun];
    try (intros c; split; [| intros e]; open_step; frame_step; fail).
  - (* ulimits *)
    intros c. split; [| intros e]; rewrite !configureULimits_adds; reflexivity.
  - (* volumes *)
    intros c. unfold configureVolumes. split; [| intros e]; cbn;
      destruct (decide _); try done.
    + by apply (fold_left_preserves (fun c => Config.Env (opts c))).
    + by apply (fold_left_commutes (set_env e)).
Qed.

(** The hostname step keeps the task, the driver and the network mode, and
    leaves network mode or hostname unset. *)
Lemma configureHostname_excl (c : cookie) :
  task (configureHostname c) = task c /\ drv (configureHostname c) = drv c /\
  mode_of (configureHostname c) = mode_of c /\
  (mode_or_hostname_unset c -> mode_or_hostname_unset (configureHostname c)).
Proof.
  unfold configureHostname, mode_or_hostname_unset, mode_of.
  destruct (decide (HostConfig.NetworkMode (hostOpts c) <> "")) as [Hset | Hunset]; cbn.
  - done.
  - repeat split. intros _. left.
    by destruct (decide (HostConfig.NetworkMode (hostOpts c) = "")).
Qed.

Lemma call_done {A : Type} (e : Call.t) (h : R -> A * R) (s : State R) :
  call e h s = Done (h (world s)).1 (mkState (ck s) (h (world s)).2 (calls s ++ [e])).
Proof. unfold call. by destruct (h (world s)). Qed.

(** The network step returns, and touches neither the process options,
    nor the task, nor the driver. *)
Lemma configureNetwork_done (s : State R) :
  exists s', configureNetwork s = Done tt s' /\
    opts (ck s') = opts (ck s) /\ task (ck s') = task (ck s) /\ drv (ck s') = drv (ck s).
Proof.
  unfold configureNetwork. munfold.
  destruct (decide (HostConfig.NetworkMode (hostOpts (ck s)) <> "")) as [Hset | Hunset].
  - eauto.
  - destruct (Task.DisableNet (task (ck s))); [cbn; eauto |].
    destruct (Driver.pool (drv (ck s))); cbn.
    + rewrite call_done. cbn.
      destruct (Collab.AllocPoolId (world s)) as [[id err] w]. cbn.
      destruct (decide (id <> "")); cbn; [eauto |].
      rewrite call_done. cbn.
      destruct (Collab.AllocNetwork w) as [id' w']. cbn.
      destruct (decide (id' <> "")); cbn; eauto.
    + rewrite call_done. cbn.
      destruct (Collab.AllocNetwork (world s)) as [id' w']. cbn.
      destruct (decide (id' <> "")); cbn; eauto.
Qed.

(** The network step does not look at the environment list. *)
Lemma configureNetwork_set_env (e : list string) (c : cookie) (w : R) (k : list Call.t) :
  configureNetwork (mkState (set_env e c) w k) =
    match configureNetwork (mkState c w k) with
    | Done _ s' => Done tt (mkState (set_env e (ck s')) (world s') (calls s'))
    | Fatal s' => Fatal (mkState (set_env e (ck s')) (world s') (calls s'))
    end.
Proof.
  unfold configureNetwork, set_env, on_opts, with_opts. munfold.
  repeat first
    [ rewrite !call_done; cbn
    | match goal with
      | |- context [decide ?P] => destruct (decide P); cbn
      | |- context [if ?b then _ else _] => destruct b eqn:?; cbn
      | |- context [let '(_, _) := ?p in _] => destruct p eqn:?; cbn
      end ];
    reflexivity.
Qed.

(** *** Sequences of steps *)

Lemma run_steps_cons (st : step) (l : list step) (s : State R) :
  run_steps (st :: l) s =
    match run_step st s with
    | Done _ s' => run_steps l s'
    | Fatal s' => Fatal s'
    end.
Proof. reflexivity. Qed.

(** A property of the state that every step of a kind keeps, is kept by
    every sequence of such steps; and every step returns. *)
Lemma run_steps_keeps (P : State R -> Prop) (ok : step -> Prop) :
  (forall st s, ok st -> P s -> exists s', run_step st s = Done tt s' /\ P s') ->
  forall l s, Forall ok l -> P s -> exists s', run_steps l s = Done tt s' /\ P s'.
Proof.
  intros Hstep l. induction l as [| st l IH]; intros s Hok HP.
  - exists s. by split.
  - apply Forall_cons in Hok as [Hst Hl].
    destruct (Hstep st s Hst HP) as (s1 & Hrun & HP1).
    rewrite run_steps_cons, Hrun. by apply IH.
Qed.

Lemma run_steps_app (l1 l2 : list step) (s : State R) :
  run_steps (l1 ++ l2) s =
    match run_steps l1 s with
    | Done _ s1 => run_steps l2 s1
    | Fatal s1 => Fatal s1
    end.
Proof.
  revert s. induction l1 as [| st l1 IH]; intros s; [done |].
  rewrite <- app_comm_cons, !run_steps_cons.
  destruct (run_step st s) as [[] s' | s']; [apply IH | done].
Qed.

Lemma run_step_done (st : step) (s : State R) : exists s', run_step st s = Done tt s'.
Proof.
  destruct (decide (st = stepNetwork)) as [-> | Hst].
  - destruct (configureNetwork_done s) as (s' & Hrun & _). eauto.
  - rewrite run_step_fun by done. eauto.
Qed.

(** No sequence of configuration steps fails. *)
Lemma run_steps_done (l : list step) (s : State R) : exists s', run_steps l s = Done tt s'.
Proof.
  destruct (run_steps_keeps (fun _ => True) (fun _ => True)) with (l := l) (s := s)
    as (s' & Hrun & _); try done.
  - intros st s0 _ _. destruct (run_step_done st s0) as [s' Hs']. eauto.
  - by apply Forall_true.
  - eauto.
Qed.

End StepFacts.

(** ** Soft ulimits *)

Section SoftULimits.
Context {R : Type} `{!Collab.t R}.

(** C8: the ulimits step appends entries to the ulimit list and changes
    nothing else; a ulimit whose value is above the largest signed 64-bit
    integer gets no entry, every ulimit whose value is present and within
    range gets its entry with soft and hard limits equal to the value; and
    no sequence of configuration steps fails. *)
Theorem configureULimits_skips_overflow (c : cookie) :
  Task.wf (task c) ->
  (exists added : list Ulimit.t,
     configureULimits c = add_ulimits added c /\
     (forall u, In u added -> Ulimit.Soft u = Ulimit.Hard u) /\
     forall name v, In (name, Some v) (ulimitTable (task c)) ->
       (Go.MaxInt64 < v -> forall u, In u added -> Ulimit.Name u <> name) /\
       (v <= Go.MaxInt64 -> In (Ulimit.mk name v v) added)) /\
  (forall (l : list step) (s : State R), exists s', run_steps l s = Done tt s').
Proof.
  intros Hwf. split; [| apply run_steps_done].
  eexists. split; [by apply configureULimits_spec |].
  split.
  - intros u Hu. rewrite !in_app_iff in Hu.
    destruct Hu as [Hu | [Hu | [Hu | Hu]]];
      apply in_spec_ulimit in Hu as (v & _ & _ & ->); reflexivity.
  - intros name v Hin. split.
    + intros Hbig u Hu Hname. rewrite !in_app_iff in Hu.
      cbn in Hin.
      destruct Hu as [Hu | [Hu | [Hu | Hu]]];
        apply in_spec_ulimit in Hu as (v' & Hv' & Hle & ->); cbn in Hname; subst name;
        destruct Hin as [Hin | [Hin | [Hin | [Hin | []]]]];
        try discriminate; injection Hin as Hin; rewrite Hv' in Hin;
        injection Hin as <-; lia.
    + intros Hle. rewrite !in_app_iff. cbn in Hin.
      destruct Hin as [Hin | [Hin | [Hin | [Hin | []]]]];
        injection Hin as <- Hval; unfold spec_ulimit at 1 2 3 4; rewrite Hval;
        rewrite decide_True by done; cbn; tauto.
Qed.

End SoftULimits.

Lemma configureULimits_skips_overflow_witness :
  let t := Sample.with_ulimits (Some 1024) (Some (2 ^ 63)) None (Some 8192) Sample.busyTask in
  let c := newCookie t Sample.driver in
  HostConfig.Ulimits (hostOpts (configureULimits c)) =
    [Ulimit.mk "nofile" 1024 1024; Ulimit.mk "msgqueue" 8192 8192] /\
  (exists added : list Ulimit.t,
     configureULimits c = add_ulimits added c /\
     (forall u, In u added -> Ulimit.Name u <> "memlock") /\
     In (Ulimit.mk "nofile" 1024 1024) added) /\
  exists s', configure [] (mkState c Sample.empty []) = Done tt s'.
Proof.
  intros t c. split; [by vm_compute |].
  assert (Hwf : Task.wf (task c)).
  { in_range. }
  destruct (configureULimits_skips_overflow (R := Mem.t) c Hwf)
    as [(added & Heq & _ & Htab) Hdone].
  split; [| apply Hdone].
  exists added. split; [exact Heq |]. split.
  - apply (Htab "memlock" (2 ^ 63)); [cbn; tauto | by vm_compute].
  - apply (Htab "nofile" 1024); [cbn; tauto | by vm_compute].
Defined.

(** ** Network mode and hostname *)

Section NetworkAndHostname.
Context {R : Type} `{!Collab.t R}.

(** C9: take any sequence of configuration steps in which no network step
    follows a hostname step, run from a launch configuration with no
    hostname yet.  It returns, and in the launch configuration it leaves the
    network mode is unset or the hostname is unset.  The hostname step
    changes nothing when the network mode is set. *)
Theorem steps_mode_excludes_hostname (before after : list step) (s : State R) :
  Config.Hostname (opts (ck s)) = "" ->
  Forall (fun st => st <> stepHostname) before ->
  Forall (fun st => st <> stepNetwork) after ->
  (exists s', run_steps (before ++ after) s = Done tt s' /\
     (HostConfig.NetworkMode (hostOpts (ck s')) = "" \/
      Config.Hostname (opts (ck s')) = "")) /\
  (forall c, HostConfig.NetworkMode (hostOpts c) <> "" -> configureHostname c = c).
Proof.
  intros Hfresh Hbefore Hafter. split.
  - destruct (run_steps_keeps (fun s => Config.Hostname (opts (ck s)) = "")
                (fun st => st <> stepHostname)) with (l := before) (s := s)
      as (s1 & Hrun1 & Hhost); [| done | done |].
    { intros st s0 Hst H0. destruct (decide (st = stepNetwork)) as [-> | Hnet].
      - destruct (configureNetwork_done s0) as (s' & Hrun & Hopts & _).
        exists s'. split; [done |]. by rewrite Hopts.
      - rewrite run_step_fun by done. eexists. split; [done |]. cbn.
        by destruct (frame_step_fun st Hst (ck s0)) as (_ & _ & _ & ->). }
    destruct (run_steps_keeps (fun s => mode_or_hostname_unset (ck s))
                (fun st => st <> stepNetwork)) with (l := after) (s := s1)
      as (s2 & Hrun2 & Hexcl); [| done | by right |].
    { intros st s0 Hst H0. rewrite run_step_fun by done. eexists. split; [done |]. cbn.
      destruct (decide (st = stepHostname)) as [-> | Hhn].
      - by apply configureHostname_excl.
      - destruct (frame_step_fun st Hhn (ck s0)) as (_ & _ & Hm & Hh).
        unfold mode_or_hostname_unset, mode_of in *. by rewrite Hm, Hh. }
    exists s2. by rewrite run_steps_app, Hrun1.
  - intros c Hset. unfold configureHostname. by rewrite decide_True.
Qed.

End NetworkAndHostname.

(** The order of the spec, with a pool that grants the prefork container
    ["p1"]. *)
Lemma steps_mode_excludes_hostname_witness :
  let w := Mem.mk [] [] [] None ["p1"] [] [] in
  exists s', configure [] (Sample.start w) = Done tt s' /\
    (HostConfig.NetworkMode (hostOpts (ck s')) = "" \/ Config.Hostname (opts (ck s')) = "").
Proof.
  intros w.
  destruct (steps_mode_excludes_hostname (take 13 (specOrder [])) (drop 13 (specOrder []))
              (Sample.start w)) as [Hrun _].
  - reflexivity.
  - cbn. repeat constructor; discriminate.
  - cbn. repeat constructor; discriminate.
  - exact Hrun.
Defined.

Example configure_with_pool_grant :
  let w := Mem.mk [] [] [] None ["p1"] [] [] in
  exists s', configure [] (Sample.start w) = Done tt s' /\
    HostConfig.NetworkMode (hostOpts (ck s')) = "container:p1" /\
    Config.Hostname (opts (ck s')) = "" /\ poolId (ck s') = "p1" /\
    calls s' = [Call.AllocPoolId].
Proof. cbv zeta. eexists. split; [by vm_compute | by vm_compute]. Qed.

(** With the hostname step ahead of the network step, both get set. *)
Example hostname_before_network :
  let w := Mem.mk [] [] [] None ["p1"] [] [] in
  exists s', run_steps [stepHostname; stepNetwork] (Sample.start w) = Done tt s' /\
    HostConfig.NetworkMode (hostOpts (ck s')) = "container:p1" /\
    Config.Hostname (opts (ck s')) = "runner-1".
Proof. cbv zeta. eexists. split; [by vm_compute | by vm_compute]. Qed.

(** ** The order of the environment entries *)

Section EnvOrder.
Context {R : Type} `{!Collab.t R}.

Lemma task_step_fun (st : step) (c : cookie) : task (step_fun st c) = task c.
Proof.
  destruct (decide (st = stepHostname)) as [-> | Hst].
  - apply configureHostname_excl.
  - apply (frame_step_fun st Hst).
Qed.

(** One step, run on two cookies that differ in the environment list
    only, by a permutation. *)
Lemma step_sim (st1 st2 : step) (c : cookie) (e : list string) (w : R) (k : list Call.t) :
  same_step st1 st2 ->
  (forall iter, st1 = stepEnv iter \/ st2 = stepEnv iter ->
                range_order (Task.EnvVars (task c)) iter) ->
  Config.Env (opts c) ≡ₚ e ->
  exists c1 e1 w1 k1,
    run_step st1 (mkState c w k) = Done tt (mkState c1 w1 k1) /\
    run_step st2 (mkState (set_env e c) w k) = Done tt (mkState (set_env e1 c1) w1 k1) /\
    Config.Env (opts c1) ≡ₚ e1 /\ task c1 = task c.
Proof.
  intros Hsame Hord Hperm.
  assert (Henv : forall i1 i2,
             range_order (Task.EnvVars (task c)) i1 ->
             range_order (Task.EnvVars (task c)) i2 ->
             exists c1 e1 w1 k1,
               run_step (stepEnv i1) (mkState c w k) = Done tt (mkState c1 w1 k1) /\
               run_step (stepEnv i2) (mkState (set_env e c) w k)
                 = Done tt (mkState (set_env e1 c1) w1 k1) /\
               Config.Env (opts c1) ≡ₚ e1 /\ task c1 = task c).
  { intros i1 i2 H1 H2.
    exists (add_env (envEntry <$> i1) c), (e ++ (envEntry <$> i2)), w, k.
    cbn [run_step]. unfold modck. cbn [ck world calls].
    rewrite (configureEnv_spec i1 c), (configureEnv_spec i2 (set_env e c)) by done.
    repeat split.
    cbn. apply Permutation_app; [done |]. apply fmap_Permutation.
    unfold range_order in H1, H2. by rewrite H1, H2. }
  destruct Hsame as [i1 i2 | st]; [apply Henv; apply Hord; auto |].
  destruct (decide (st = stepNetwork)) as [-> | Hnet].
  - destruct (configureNetwork_done (mkState c w k))
      as ([c1 w1 k1] & Hrun & Hopts & Htask & _).
    cbn [ck world calls] in *. exists c1, e, w1, k1.
    cbn [run_step]. rewrite configureNetwork_set_env, Hrun, Hopts. done.
  - destruct st; try done; try (apply Henv; apply Hord; auto);
      rewrite !run_step_fun by done; cbn [ck world calls];
      (eexists _, e, w, k; split; [reflexivity |];
       edestruct env_blind_step_fun as [Hsame_env Hblind]; [| rewrite Hblind, Hsame_env];
       [done | split; [reflexivity |]; split; [done | apply task_step_fun]]).
Qed.

Lemma steps_sim (l1 l2 : list step) :
  Forall2 same_step l1 l2 ->
  forall (c : cookie) (e : list string) (w : R) (k : list Call.t),
    (forall iter, In (stepEnv iter) (l1 ++ l2) -> range_order (Task.EnvVars (task c)) iter) ->
    Config.Env (opts c) ≡ₚ e ->
    exists c' e' w' k',
      run_steps l1 (mkState c w k) = Done tt (mkState c' w' k') /\
      run_steps l2 (mkState (set_env e c) w k) = Done tt (mkState (set_env e' c') w' k') /\
      Config.Env (opts c') ≡ₚ e'.
Proof.
  induction 1 as [| st1 st2 l1 l2 Hst _ IH]; intros c e w k Hord Hperm.
  - exists c, e, w, k. done.
  - destruct (step_sim st1 st2 c e w k Hst) as (c1 & e1 & w1 & k1 & H1 & H2 & Hp1 & Ht1);
      [| done |].
    { intros iter [-> | ->]; apply Hord; rewrite in_app_iff; cbn; auto. }
    rewrite !run_steps_cons, H1, H2. apply IH; [| done].
    intros iter Hin. rewrite Ht1. apply Hord.
    rewrite in_app_iff in *. cbn. tauto.
Qed.

(** C5, as amended: take two runs of the same sequence of configuration
    steps from the same cookie and the same state of the collaborators, each
    run with its own order of visiting the environment map.  Both return,
    make the same calls, leave the collaborators in the same state, and
    produce launch configurations that agree in every field but the
    environment list; the two environment lists hold the same entries, in
    possibly different order. *)
Theorem steps_same_up_to_env_order (l1 l2 : list step) (s : State R) :
  Forall2 same_step l1 l2 ->
  (forall iter, In (stepEnv iter) (l1 ++ l2) ->
                range_order (Task.EnvVars (task (ck s))) iter) ->
  exists s1 s2,
    run_steps l1 s = Done tt s1 /\ run_steps l2 s = Done tt s2 /\
    world s1 = world s2 /\ calls s1 = calls s2 /\
    on_opts (Config.with_Env (Config.Env (opts (ck s2)))) (ck s1) = ck s2 /\
    Config.Env (opts (ck s1)) ≡ₚ Config.Env (opts (ck s2)).
Proof.
  intros Hsame Hord. destruct s as [c w k]. cbn [ck] in Hord.
  destruct (steps_sim l1 l2 Hsame c (Config.Env (opts c)) w k Hord)
    as (c' & e' & w' & k' & H1 & H2 & Hperm); [done |].
  rewrite set_env_same in H2.
  do 2 eexists. split; [exact H1 |]. split; [exact H2 |]. cbn. done.
Qed.

End EnvOrder.

Lemma twoVars_orders :
  range_order twoVars [("A", "1"); ("B", "2")] /\
  range_order twoVars [("B", "2"); ("A", "1")].
Proof.
  unfold range_order.
  assert (Hl : map_to_list twoVars = [("A", "1"); ("B", "2")]) by (by vm_compute).
  rewrite Hl. split; [reflexivity | apply perm_swap].
Qed.

(** The order of the spec, for a task with the variables [A=1] and [B=2]. *)
Lemma steps_same_up_to_env_order_witness :
  let s := mkState (newCookie (Sample.with_env twoVars Sample.busyTask) Sample.driver)
                   Sample.empty [] in
  exists s1 s2,
    configure [("A", "1"); ("B", "2")] s = Done tt s1 /\
    configure [("B", "2"); ("A", "1")] s = Done tt s2 /\
    world s1 = world s2 /\ calls s1 = calls s2 /\
    on_opts (Config.with_Env (Config.Env (opts (ck s2)))) (ck s1) = ck s2 /\
    Config.Env (opts (ck s1)) ≡ₚ Config.Env (opts (ck s2)).
Proof.
  intros s.
  apply (steps_same_up_to_env_order (specOrder [("A", "1"); ("B", "2")])
           (specOrder [("B", "2"); ("A", "1")]) s).
  - repeat constructor.
  - intros iter Hin. cbn in Hin.
    repeat (destruct Hin as [Hin | Hin];
            [try discriminate Hin; injection Hin as <-; apply twoVars_orders |]).
    destruct Hin.
Defined.

(** C5 as stated fails: for a task with the variables [A=1] and [B=2], one
    run visits [A] first and another visits [B] first; both are orders of the
    map's entries, and the two environment lists differ. *)
Lemma configure_env_order_differs :
  let c := newCookie (Sample.with_env twoVars Sample.busyTask) Sample.driver in
  let s := mkState c Sample.empty [] in
  let iter1 := [("A", "1"); ("B", "2")] in
  let iter2 := [("B", "2"); ("A", "1")] in
  range_order (Task.EnvVars (task c)) iter1 /\
  range_order (Task.EnvVars (task c)) iter2 /\
  Config.Env (opts (configureEnv iter1 c)) = ["A=1"; "B=2"] /\
  Config.Env (opts (configureEnv iter2 c)) = ["B=2"; "A=1"] /\
  exists s1 s2,
    configure iter1 s = Done tt s1 /\ configure iter2 s = Done tt s2 /\
    Config.Env (opts (ck s1)) = ["A=1"; "B=2"] /\
    Config.Env (opts (ck s2)) = ["B=2"; "A=1"] /\
    opts (ck s1) <> opts (ck s2).
Proof.
  cbv zeta. split; [apply twoVars_orders |]. split; [apply twoVars_orders |].
  split; [by vm_compute |]. split; [by vm_compute |].
  do 2 eexists. split; [by vm_compute |]. split; [by vm_compute |].
  split; [by vm_compute |]. split; [by vm_compute |].
  intros Heq. apply (f_equal Config.Env) in Heq. vm_compute in Heq. discriminate Heq.
Qed.

(** ** The life cycle *)

Section LifeCycle.
Context {R : Type} `{!Collab.t R}.

(** Runs a method on a symbolic state: unfolds the monad, answers each call
    by the collaborator's transition, and splits on the tests met. *)
Ltac mrun :=
  munfold;
  repeat first
    [ rewrite call_done; cbn
    | match goal with
      | |- context [match ?x with Some _ => _ | None => _ end] => destruct x eqn:?; cbn
      | |- context [if ?b then _ else _] => destruct b eqn:?; cbn
      | |- context [let '(_, _) := ?p in _] => destruct p eqn:?; cbn
      end ].

(** [Close] returns, leaves the cookie as it was, and makes the calls of
    [closeCalls]; what it returns is the answer of the removal, if any. *)
Lemma Close_spec (s : State R) :
  exists err w,
    Close s = Done err (mkState (ck s) w (calls s ++ closeCalls (ck s))) /\
    err = if containerCreated (ck s)
          then (Collab.RemoveContainer (Task.Id (task (ck s))) true true (world s)).1
          else None.
Proof.
  destruct s as [c w l]. unfold Close, closeCalls. mrun;
    (do 2 eexists; split;
     [rewrite <- ?app_assoc, ?app_nil_r; cbn; reflexivity | reflexivity]).
Qed.

Lemma PullImage_keeps_cookie (s s' : State R) (r : option error) :
  PullImage s = Done r s' -> ck s' = ck s.
Proof.
  unfold PullImage, authImage. mrun; intros [= <- <-]; reflexivity.
Qed.

(** [ValidateImage] asks for a pull only when no record is held, and then
    leaves the cookie as it was. *)
Lemma ValidateImage_needs_pull (s s' : State R) (e : option error) :
  ValidateImage s = Done (true, e) s' -> ck s' = ck s /\ image (ck s) = None.
Proof.
  unfold ValidateImage. mrun; intros [= <- <-]; try done.
Qed.


(** A record is held after [ValidateImage] returns [(false, nil)]; the
    launch configuration, the task and the container flag are as before. *)
Lemma ValidateImage_validated (s s' : State R) :
  ValidateImage s = Done (false, None) s' ->
  is_Some (image (ck s')) /\ opts (ck s') = opts (ck s) /\
  hostOpts (ck s') = hostOpts (ck s) /\ task (ck s') = task (ck s) /\
  containerCreated (ck s') = containerCreated (ck s).
Proof.
  unfold ValidateImage. mrun; intros [= <-]; cbn; subst; try done;
    match goal with H : image _ = Some _ |- _ => rewrite H; eauto end.
Qed.

(** Whatever the runtime answers to the create call, [CreateContainer]
    sets the container flag. *)
Lemma CreateContainer_marks_created (s : State R) :
  is_Some (image (ck s)) -> containerCreated (ck s) = false ->
  let r := Collab.ContainerCreate (opts (ck s)) (hostOpts (ck s))
             (Task.Id (task (ck s))) (world s) in
  CreateContainer s =
    Done (if decide (r.1 = Some ErrNoSuchImage) then Some ErrCallTimeoutServerBusy else r.1)
         (mkState (with_containerCreated true (ck s)) r.2
            (calls s ++ [Call.ContainerCreate (opts (ck s)) (hostOpts (ck s))
                           (Task.Id (task (ck s)))])).
Proof.
  intros [img Himg] Hflag. unfold CreateContainer. munfold.
  rewrite Himg, Hflag, call_done. cbn.
  by destruct (decide _).
Qed.

(** C1, as amended: after [ValidateImage] has returned [(true, nil)] and
    [PullImage] has returned [nil], the cookie still holds no image record
    and [CreateContainer] ends in its fatal precondition; once a further
    [ValidateImage] has returned [(false, nil)], [CreateContainer] returns,
    and returns [nil] when the runtime's create call does. *)
Theorem CreateContainer_after_pull (s0 s1 s2 : State R) :
  containerCreated (ck s0) = false ->
  ValidateImage s0 = Done (true, None) s1 ->
  PullImage s1 = Done None s2 ->
  CreateContainer s2 = Fatal s2 /\
  forall s3, ValidateImage s2 = Done (false, None) s3 ->
    (exists err s4, CreateContainer s3 = Done err s4) /\
    forall w,
      Collab.ContainerCreate (opts (ck s3)) (hostOpts (ck s3))
        (Task.Id (task (ck s3))) (world s3) = (None, w) ->
      exists s4, CreateContainer s3 = Done None s4 /\ world s4 = w /\
                 containerCreated (ck s4) = true.
Proof.
  intros Hflag Hval Hpull.
  apply ValidateImage_needs_pull in Hval as [Hck1 Hnone].
  apply PullImage_keeps_cookie in Hpull as Hck2.
  assert (Hnone2 : image (ck s2) = None) by (by rewrite Hck2, Hck1).
  split.
  - unfold CreateContainer. munfold. by rewrite Hnone2.
  - intros s3 Hval3.
    apply ValidateImage_validated in Hval3 as (Himg & _ & _ & _ & Hflag3).
    rewrite Hck2, Hck1, Hflag in Hflag3.
    pose proof (CreateContainer_marks_created s3 Himg Hflag3) as Hcreate.
    cbv zeta in Hcreate. split; [eauto |].
    intros w Hw. rewrite Hw in Hcreate. cbn in Hcreate.
    eexists. split; [exact Hcreate | done].
Qed.

(** C4: when no record is held yet, the inspection succeeds, the image
    declares a volume and the driver does not enable image volumes,
    [ValidateImage] returns [(false, ErrImageWithVolume)], the cookie holds
    the record of the inspected image, and the call made after the
    inspection, before returning, is the cache's [Update] with that record
    (when the driver has an image cache); [MarkBusy] is not called. *)
Theorem ValidateImage_volume_policy (s : State R) (img : ImageInspect.t)
    (cfg : Config.t) (vol : string) (w : R) :
  image (ck s) = None ->
  Collab.ImageInspectWithRaw (Task.Image (task (ck s))) (world s) = ((img, None), w) ->
  ImageInspect.Config img = Some cfg ->
  vol ∈ default (∅ : gset string) (Config.Volumes cfg) ->
  Driver.ImageEnableVolume (Driver.conf (drv (ck s))) = false ->
  exists s',
    ValidateImage s = Done (false, Some ErrImageWithVolume) s' /\
    image (ck s') = Some (cachedImage img) /\
    calls s' = calls s ++
      Call.ImageInspectWithRaw (Task.Image (task (ck s))) ::
      (if Driver.imgCache (drv (ck s)) then [Call.Update (cachedImage img)] else []) /\
    world s' = if Driver.imgCache (drv (ck s))
               then (Collab.Update (cachedImage img) w).2 else w.
Proof.
  intros Hnone Hins Hcfg Hvol Hpolicy.
  assert (Hhas : hasVolumes img = true).
  { unfold hasVolumes. rewrite Hcfg. apply bool_decide_eq_true.
    destruct (decide (size (default (∅ : gset string) (Config.Volumes cfg)) = 0%nat))
      as [Hz | Hnz]; [| lia].
    apply size_empty_iff in Hz. set_solver. }
  unfold ValidateImage. munfold.
  rewrite Hnone, call_done, Hins. cbn. rewrite Hpolicy, Hhas. cbn.
  rewrite decide_False by done.
  destruct (Driver.imgCache (drv (ck s))); cbn.
  - rewrite decide_True by done. rewrite call_done. cbn.
    eexists. split; [reflexivity |]. cbn. by rewrite <- app_assoc.
  - eexists. split; [reflexivity |]. done.
Qed.

(** C10: [Close] returns and leaves the cookie as it was, grants and image
    record included; a second [Close] returns as well and makes the same
    calls again: the removal if the container flag is set, [FreePoolId]
    and [FreeNetwork] for the grants held, [MarkFree] for the record
    held. *)
Theorem Close_twice_releases_again (s : State R) :
  exists r1 s1 r2 s2,
    Close s = Done r1 s1 /\ Close s1 = Done r2 s2 /\
    ck s1 = ck s /\
    calls s1 = calls s ++ closeCalls (ck s) /\
    calls s2 = calls s1 ++ closeCalls (ck s) /\
    (containerCreated (ck s) = true ->
     In (Call.RemoveContainer (Task.Id (task (ck s))) true true) (closeCalls (ck s))) /\
    (poolId (ck s) <> "" -> Driver.pool (drv (ck s)) = true ->
     In (Call.FreePoolId (poolId (ck s))) (closeCalls (ck s))) /\
    (netId (ck s) <> "" -> In (Call.FreeNetwork (netId (ck s))) (closeCalls (ck s))) /\
    (forall img, image (ck s) = Some img -> Driver.imgCache (drv (ck s)) = true ->
     In (Call.MarkFree img) (closeCalls (ck s))).
Proof.
  destruct (Close_spec s) as (r1 & w1 & Hc1 & _).
  destruct (Close_spec (mkState (ck s) w1 (calls s ++ closeCalls (ck s))))
    as (r2 & w2 & Hc2 & _).
  cbn [ck calls] in Hc2.
  do 4 eexists. split; [exact Hc1 |]. split; [exact Hc2 |].
  cbn [ck calls]. repeat split; try reflexivity; unfold closeCalls.
  - intros ->. rewrite !in_app_iff. left. cbn. by left.
  - intros Hp ->. rewrite bool_decide_eq_true_2 by done.
    rewrite !in_app_iff. right. left. cbn. by left.
  - intros Hn. rewrite decide_True by done.
    rewrite !in_app_iff. right. right. left. cbn. by left.
  - intros img -> ->. rewrite !in_app_iff. right. right. right. cbn. by left.
Qed.

(** Every method that returns leaves the task as it was and only adds to
    the calls; the container flag is set by nothing but a create call for
    the task's identifier. *)
Lemma invoke_flag (m : method) (s s' : State R) :
  invoke m s = Done tt s' ->
  task (ck s') = task (ck s) /\
  exists l, calls s' = calls s ++ l /\
    (containerCreated (ck s') = true ->
     containerCreated (ck s) = true \/
     exists o h, In (Call.ContainerCreate o h (Task.Id (task (ck s)))) l).
Proof.
  destruct m; unfold invoke.
  - unfold ValidateImage. mrun; intros [= <-]; cbn; (split; [done |]);
      eexists; (split; [rewrite <- ?app_assoc; try reflexivity; by rewrite app_nil_r |]);
      auto.
  - unfold PullImage, authImage. mrun; intros [= <-]; cbn; (split; [done |]);
      eexists; (split; [rewrite <- ?app_assoc; try reflexivity; by rewrite app_nil_r |]);
      auto.
  - unfold CreateContainer. mrun; intros [= <-]; cbn; (split; [done |]);
      eexists; (split; [rewrite <- ?app_assoc; try reflexivity; by rewrite app_nil_r |]);
      intros _; first [by left | right; do 2 eexists; by left].
  - unfold Run. mrun; intros [= <-]; cbn; (split; [done |]);
      eexists; (split; [reflexivity |]); auto.
  - unfold Freeze. mrun; intros [= <-]; cbn; (split; [done |]);
      eexists; (split; [reflexivity |]); auto.
  - unfold Unfreeze. mrun; intros [= <-]; cbn; (split; [done |]);
      eexists; (split; [reflexivity |]); auto.
  - destruct (Close_spec s) as (r & w & Hc & _). munfold. rewrite Hc.
    intros [= <-]. cbn. split; [done |]. eexists. split; [reflexivity |]. auto.
Qed.

(** On every state a cookie passes through, a set container flag tells that
    a create call for the task's identifier was made; it does not tell how
    that call was answered. *)
Lemma containerCreated_create_called (s : State R) :
  reachable s -> containerCreated (ck s) = true ->
  exists o h, In (Call.ContainerCreate o h (Task.Id (task (ck s)))) (calls s).
Proof.
  induction 1 as [s Hflag _ | s s' m _ IH Hstep]; intros Hset.
  - congruence.
  - apply invoke_flag in Hstep as (Htask & l & Hcalls & Hcause).
    rewrite Htask, Hcalls.
    destruct (Hcause Hset) as [Hbefore | (o & h & Hin)].
    + destruct (IH Hbefore) as (o & h & Hin). exists o, h. apply in_app_iff. by left.
    + exists o, h. apply in_app_iff. by right.
Qed.

(** After a [CreateContainer] that returned an error the container flag is
    set, so [Close] calls the removal and returns its answer. *)
Lemma Close_after_failed_create (s s1 : State R) (e : error) :
  CreateContainer s = Done (Some e) s1 ->
  containerCreated (ck s1) = true /\
  exists s2,
    Close s1 = Done (Collab.RemoveContainer (Task.Id (task (ck s1))) true true (world s1)).1 s2 /\
    calls s2 = calls s1 ++ closeCalls (ck s1).
Proof.
  intros Hcreate.
  assert (Hflag : containerCreated (ck s1) = true).
  { revert Hcreate. unfold CreateContainer.
    mrun; intros Heq; try discriminate Heq; injection Heq as _ <-; reflexivity. }
  split; [exact Hflag |].
  destruct (Close_spec s1) as (err & w & Hclose & Herr).
  rewrite Hflag in Herr. subst err. eauto.
Qed.

End LifeCycle.

Lemma CreateContainer_after_pull_witness :
  CreateContainer Trace.pulled = Fatal Trace.pulled /\
  exists s4, CreateContainer Trace.validated = Done None s4 /\
    Mem.containers (world s4) = ["call-1"] /\ containerCreated (ck s4) = true.
Proof.
  destruct (CreateContainer_after_pull (Sample.start Sample.pullable) Trace.missing Trace.pulled)
    as [Hfatal Hnext]; [reflexivity | by vm_compute | by vm_compute |].
  split; [exact Hfatal |].
  destruct (Hnext Trace.validated) as [_ Hcreate]; [by vm_compute |].
  destruct (Hcreate (Mem.mk [("busy:1", Sample.busyImage)] [("busy:1", Sample.busyImage)]
                            ["call-1"] None [] [] ["sha256:b1"]))
    as (s4 & Hs4 & Hw & Hflag); [by vm_compute |].
  exists s4. rewrite Hw. done.
Defined.

(** C1 as stated fails: the image is missing and can be pulled;
    [ValidateImage] returns [(true, nil)], [PullImage] returns [nil], and
    [CreateContainer] then ends in its fatal precondition: it returns
    nothing. *)
Lemma pull_then_create_is_fatal :
  ValidateImage (Sample.start Sample.pullable) = Done (true, None) Trace.missing /\
  PullImage Trace.missing = Done None Trace.pulled /\
  Mem.images (world Trace.pulled) = [("busy:1", Sample.busyImage)] /\
  CreateContainer Trace.pulled = Fatal Trace.pulled /\
  forall err s, CreateContainer Trace.pulled <> Done err s.
Proof.
  split; [by vm_compute |]. split; [by vm_compute |]. split; [by vm_compute |].
  assert (Hfatal : CreateContainer Trace.pulled = Fatal Trace.pulled) by (by vm_compute).
  split; [exact Hfatal |]. intros err s. rewrite Hfatal. discriminate.
Qed.

Lemma ValidateImage_volume_policy_witness :
  exists s',
    ValidateImage (Sample.start Sample.withVolume) = Done (false, Some ErrImageWithVolume) s' /\
    image (ck s') = Some Trace.busyRecord /\
    calls s' = [Call.ImageInspectWithRaw "busy:1"; Call.Update Trace.busyRecord].
Proof.
  destruct (ValidateImage_volume_policy (Sample.start Sample.withVolume) Sample.volumeImage
              (Config.with_Volumes (Some {["/data"]}) zeroConfig) "/data" Sample.withVolume)
    as (s' & Hrun & Himg & Hcalls & _);
    [reflexivity | reflexivity | reflexivity | cbn; set_solver | reflexivity |].
  exists s'. split; [exact Hrun |]. split; [exact Himg | exact Hcalls].
Defined.

Lemma Close_twice_releases_again_witness :
  exists r1 s1 r2 s2,
    Close Trace.created = Done r1 s1 /\ Close s1 = Done r2 s2 /\
    calls s2 = calls s1 ++ closeCalls (ck Trace.created) /\
    In (Call.RemoveContainer "call-1" true true) (closeCalls (ck Trace.created)) /\
    In (Call.FreePoolId "p1") (closeCalls (ck Trace.created)) /\
    In (Call.MarkFree Trace.busyRecord) (closeCalls (ck Trace.created)).
Proof.
  destruct (Close_twice_releases_again Trace.created)
    as (r1 & s1 & r2 & s2 & H1 & H2 & _ & _ & Hc2 & Hrm & Hpool & _ & Himg).
  exists r1, s1, r2, s2. split; [exact H1 |]. split; [exact H2 |]. split; [exact Hc2 |].
  split; [apply Hrm; by vm_compute |].
  split; [apply Hpool; by vm_compute |].
  apply Himg; by vm_compute.
Defined.

(** The second [Close] hands the grant ["p1"] back to the pool once more. *)
Example Close_twice_on_created :
  exists s2, (Close;; Close) Trace.created = Done (Some (ErrOther "No such container")) s2 /\
    calls s2 = calls Trace.created ++
      [Call.RemoveContainer "call-1" true true; Call.FreePoolId "p1";
       Call.MarkFree Trace.busyRecord;
       Call.RemoveContainer "call-1" true true; Call.FreePoolId "p1";
       Call.MarkFree Trace.busyRecord] /\
    Mem.poolIds (world s2) = ["p1"; "p1"].
Proof. eexists. split; [by vm_compute | by vm_compute]. Qed.

(** C2 holds of the intent and fails on the code: the daemon refuses the
    create call, [CreateContainer] returns the error, and the container flag
    is set although no container exists; a further [CreateContainer] then
    returns [nil] without a call. *)
Theorem CreateContainer_failed_sets_flag :
  exists s2,
    image (ck Trace.beforeCreate) = Some Trace.busyRecord /\
    containerCreated (ck Trace.beforeCreate) = false /\
    CreateContainer Trace.beforeCreate
      = Done (Some (ErrOther "no space left on device")) s2 /\
    containerCreated (ck s2) = true /\
    Mem.containers (world s2) = [] /\
    CreateContainer s2 = Done None s2.
Proof.
  eexists. split; [by vm_compute |]. split; [by vm_compute |]. split; [by vm_compute |].
  split; [by vm_compute |]. split; [by vm_compute | by vm_compute].
Qed.

(** C3 holds of the intent and fails on the code: after the failed
    [CreateContainer] no container exists, yet [Close] calls the removal,
    which fails, and [Close] returns that error; the pool grant is freed and
    the record is marked free all the same. *)
Theorem Close_after_failed_create_returns_removal_error :
  exists s2 s3,
    poolId (ck Trace.beforeCreate) = "p1" /\
    image (ck Trace.beforeCreate) = Some Trace.busyRecord /\
    CreateContainer Trace.beforeCreate
      = Done (Some (ErrOther "no space left on device")) s2 /\
    Mem.containers (world s2) = [] /\
    Close s2 = Done (Some (ErrOther "No such container")) s3 /\
    calls s3 = calls s2 ++
      [Call.RemoveContainer "call-1" true true; Call.FreePoolId "p1";
       Call.MarkFree Trace.busyRecord].
Proof.
  do 2 eexists. split; [by vm_compute |]. split; [by vm_compute |].
  split; [by vm_compute |]. split; [by vm_compute |].
  split; [by vm_compute | by vm_compute].
Qed.


(** * Further properties *)

(** Runs a method on a symbolic state: unfolds the monad, answers each call
    by the collaborator's transition, and splits on the tests met. *)
Ltac mrun_all :=
  munfold;
  repeat first
    [ rewrite call_done; cbn
    | match goal with
      | |- context [match ?x with Some _ => _ | None => _ end] => destruct x eqn:?; cbn
      | |- context [if ?b then _ else _] => destruct b eqn:?; cbn
      | |- context [let '(_, _) := ?p in _] => destruct p eqn:?; cbn
      end ].

Lemma creates_app (l1 l2 : list Call.t) : creates (l1 ++ l2) = (creates l1 + creates l2)%nat.
Proof. induction l1 as [| e l1 IH]; cbn; [done |]. rewrite IH. lia. Qed.

(** ** The life cycle, over any sequence of calls *)

Section Sequences.
Context {R : Type} `{!Collab.t R}.

Lemma invoke_all_cons (m : method) (ms : list method) (s : State R) :
  invoke_all (m :: ms) s =
    match invoke m s with
    | Done _ s1 => invoke_all ms s1
    | Fatal s1 => Fatal s1
    end.
Proof. reflexivity. Qed.

(** A relation between states that holds across every call, holds across
    every sequence of calls. *)
Lemma invoke_all_rel (Rel : State R -> State R -> Prop) :
  (forall s, Rel s s) ->
  (forall s1 s2 s3, Rel s1 s2 -> Rel s2 s3 -> Rel s1 s3) ->
  (forall m s s', invoke m s = Done tt s' -> Rel s s') ->
  forall ms s s', invoke_all ms s = Done tt s' -> Rel s s'.
Proof.
  intros Hrefl Htrans Hstep ms. induction ms as [| m ms IH]; intros s s' Hrun.
  - injection Hrun as <-. apply Hrefl.
  - rewrite invoke_all_cons in Hrun.
    destruct (invoke m s) as [[] s1 | s1] eqn:Hm; [| done].
    eapply Htrans; [apply (Hstep m); exact Hm | by apply IH].
Qed.

(** What one call that returns does to the cookie and to the calls. *)
Lemma invoke_effect (m : method) (s s' : State R) :
  invoke m s = Done tt s' ->
  configured (ck s') = configured (ck s) /\
  (forall img, image (ck s) = Some img -> image (ck s') = Some img) /\
  (containerCreated (ck s) = true -> containerCreated (ck s') = true) /\
  (containerCreated (ck s') = true -> containerCreated (ck s) = false ->
   is_Some (image (ck s))) /\
  exists l, calls s' = calls s ++ l /\
    (creates l <= 1)%nat /\
    (creates l = 1%nat -> containerCreated (ck s) = false /\ containerCreated (ck s') = true).
Proof.
  assert (Hclose : creates (closeCalls (ck s)) = 0%nat).
  { unfold closeCalls. rewrite !creates_app.
    repeat match goal with
           | |- context [if ?b then _ else _] => destruct b
           | |- context [match ?x with Some _ => _ | None => _ end] => destruct x
           end; reflexivity. }
  destruct m; unfold invoke;
    [ unfold ValidateImage | unfold PullImage, authImage | unfold CreateContainer
    | unfold Run | unfold Freeze | unfold Unfreeze
    | destruct (Close_spec s) as (r & w & Hc & _); munfold; rewrite Hc ];
    mrun_all; intros [= <-]; cbn;
    repeat match goal with |- _ /\ _ => split end;
    first
      [ done
      | intros; congruence
      | solve [intros; unfold is_Some; eauto]
      | eexists; split;
        [ first [ reflexivity | exact (eq_sym (app_nil_r _))
                | rewrite <- !app_assoc; reflexivity ]
        | rewrite ?Hclose; cbn; split; [lia | first [lia | intros _; split; congruence]] ] ].
Qed.

Lemma configured_inv (c c' : cookie) :
  configured c' = configured c ->
  opts c' = opts c /\ hostOpts c' = hostOpts c /\ task c' = task c /\ drv c' = drv c /\
  poolId c' = poolId c /\ netId c' = netId c /\ imgReg c' = imgReg c.
Proof. unfold configured. by intros [= -> -> -> -> -> -> ->]. Qed.

(** X1: no method of the life cycle, in whatever sequence the caller makes
    the calls, changes the launch configuration, the task, the driver, the
    grants or the registry of the cookie. *)
Theorem lifecycle_keeps_configuration (ms : list method) (s s' : State R) :
  invoke_all ms s = Done tt s' ->
  opts (ck s') = opts (ck s) /\ hostOpts (ck s') = hostOpts (ck s) /\
  task (ck s') = task (ck s) /\ drv (ck s') = drv (ck s) /\
  poolId (ck s') = poolId (ck s) /\ netId (ck s') = netId (ck s) /\
  imgReg (ck s') = imgReg (ck s).
Proof.
  intros Hrun. apply configured_inv.
  revert ms s s' Hrun.
  apply (invoke_all_rel (fun s s' => configured (ck s') = configured (ck s))).
  - done.
  - intros s1 s2 s3 H12 H23. by rewrite H23.
  - intros m s s' Hm. by apply invoke_effect in Hm as [Hc _].
Qed.

(** X2: over any sequence of calls that return, an image record once held
    stays the same record, and the container flag once set stays set. *)
Theorem record_and_flag_are_kept (ms : list method) (s s' : State R) :
  invoke_all ms s = Done tt s' ->
  (forall img, image (ck s) = Some img -> image (ck s') = Some img) /\
  (containerCreated (ck s) = true -> containerCreated (ck s') = true).
Proof.
  revert ms s s'.
  apply (invoke_all_rel (fun s s' =>
           (forall img, image (ck s) = Some img -> image (ck s') = Some img) /\
           (containerCreated (ck s) = true -> containerCreated (ck s') = true))).
  - done.
  - intros s1 s2 s3 [Hi12 Hf12] [Hi23 Hf23]. split; auto.
  - intros m s s' Hm. apply invoke_effect in Hm as (_ & Hi & Hf & _). by split.
Qed.

(** What holds of every state a cookie passes through. *)
Lemma reachable_inv (s : State R) :
  reachable s ->
  (containerCreated (ck s) = true -> is_Some (image (ck s))) /\
  (creates (calls s) <= 1)%nat /\
  (containerCreated (ck s) = false -> creates (calls s) = 0%nat).
Proof.
  induction 1 as [s Hflag Hcalls | s s' m _ (IHimg & IHone & IHnone) Hstep].
  - rewrite Hcalls, Hflag. cbn. split; [done |]. split; [lia | done].
  - apply invoke_effect in Hstep as (_ & Himg & Hflag & Hnew & l & -> & Hle & Hcreate).
    rewrite creates_app. repeat split.
    + intros Hset. destruct (containerCreated (ck s)) eqn:Hs.
      * destruct IHimg as [img Hi]; [done |]. exists img. by apply Himg.
      * destruct Hnew as [img Hi]; [done | done |]. exists img. by apply Himg.
    + destruct (decide (creates l = 1%nat)) as [H1 | H1]; [| lia].
      destruct (Hcreate H1) as [Hs _]. rewrite (IHnone Hs). lia.
    + intros Hunset. destruct (containerCreated (ck s)) eqn:Hs.
      * rewrite Hflag in Hunset by done. done.
      * rewrite IHnone by done.
        destruct (decide (creates l = 1%nat)) as [H1 | H1]; [| lia].
        destruct (Hcreate H1) as [_ Hs']. congruence.
Qed.

(** X3: on every state a cookie passes through, starting with no container
    created, a set container flag comes with an image record held: the flag
    is never set on a cookie whose image was not validated. *)
Theorem created_has_record (s : State R) :
  reachable s -> containerCreated (ck s) = true -> is_Some (image (ck s)).
Proof. intros Hreach. by apply reachable_inv in Hreach as [Himg _]. Qed.

(** X4: whatever methods are called on a cookie, how often and in what
    order, the runtime's create call is made at most once, and not at all
    while the container flag is unset. *)
Theorem create_called_at_most_once (s : State R) :
  reachable s ->
  (creates (calls s) <= 1)%nat /\
  (containerCreated (ck s) = false -> creates (calls s) = 0%nat).
Proof. intros Hreach. by apply reachable_inv in Hreach as (_ & Hone & Hnone). Qed.

(** X5: a method ends the process, instead of returning, in one case only:
    [CreateContainer] on a cookie that holds no image record.  Every other
    call of every method returns. *)
Theorem fatal_only_without_record (m : method) (s : State R) :
  (exists s', invoke m s = Fatal s') <->
  m = mCreateContainer /\ image (ck s) = None.
Proof.
  destruct m; unfold invoke;
    [ unfold ValidateImage | unfold PullImage, authImage | unfold CreateContainer
    | unfold Run | unfold Freeze | unfold Unfreeze
    | destruct (Close_spec s) as (r & w & Hc & _); munfold; rewrite Hc ];
    mrun_all; split;
    solve [ intros [s' Hs']; discriminate Hs'
          | intros [Hm Hi]; first [discriminate Hm | congruence]
          | intros _; done
          | intros _; eauto ].
Qed.

End Sequences.

Lemma lifecycle_keeps_configuration_witness :
  exists s', invoke_all Walk.all Walk.s0 = Done tt s' /\
    opts (ck s') = opts (ck Walk.s0) /\ hostOpts (ck s') = hostOpts (ck Walk.s0) /\
    poolId (ck s') = poolId (ck Walk.s0).
Proof.
  eexists. split; [by vm_compute |].
  edestruct (lifecycle_keeps_configuration Walk.all Walk.s0) as (Ho & Hh & _ & _ & Hp & _);
    [by vm_compute |].
  split; [exact Ho |]. split; [exact Hh | exact Hp].
Defined.

Lemma record_and_flag_are_kept_witness :
  exists s', invoke_all [mFreeze; mCreateContainer; mClose; mValidateImage] Walk.s2
             = Done tt s' /\
    image (ck s') = Some Trace.busyRecord /\ containerCreated (ck s') = true.
Proof.
  eexists. split; [by vm_compute |].
  edestruct (record_and_flag_are_kept [mFreeze; mCreateContainer; mClose; mValidateImage]
               Walk.s2) as [Hi Hf]; [by vm_compute |].
  split; [apply Hi; by vm_compute | apply Hf; by vm_compute].
Defined.

Lemma walk_reachable : reachable Walk.s3.
Proof.
  apply (reach_step Walk.s2 Walk.s3 mClose); [| by vm_compute].
  apply (reach_step Walk.s1 Walk.s2 mCreateContainer); [| by vm_compute].
  apply (reach_step Walk.s0 Walk.s1 mValidateImage); [| by vm_compute].
  apply reach_init; reflexivity.
Qed.

Lemma created_has_record_witness : is_Some (image (ck Walk.s3)).
Proof. apply created_has_record; [apply walk_reachable | by vm_compute]. Defined.

Lemma create_called_at_most_once_witness :
  (creates (calls Walk.s3) <= 1)%nat /\ creates (calls Walk.s3) = 1%nat.
Proof.
  split; [apply create_called_at_most_once, walk_reachable | by vm_compute].
Defined.

(** ** Validating, pulling, creating, closing *)

Section Methods2.
Context {R : Type} `{!Collab.t R}.

(** X6: when the inspection fails, [ValidateImage] makes that one call and
    no other, captures no record and leaves the cookie as it was; it asks
    for a pull when the error is [ErrNoSuchImage], and returns any other
    error as it is. *)
Theorem ValidateImage_inspection_failure (s : State R) (img : ImageInspect.t)
    (e : error) (w : R) :
  image (ck s) = None ->
  Collab.ImageInspectWithRaw (Task.Image (task (ck s))) (world s) = ((img, Some e), w) ->
  ValidateImage s =
    Done (if decide (e = ErrNoSuchImage) then (true, None) else (false, Some e))
         (mkState (ck s) w
            (calls s ++ [Call.ImageInspectWithRaw (Task.Image (task (ck s)))])).
Proof.
  intros Hnone Hins. unfold ValidateImage. munfold.
  rewrite Hnone, call_done, Hins. cbn.
  destruct (decide (e = ErrNoSuchImage)) as [-> | Hne].
  - by rewrite decide_True.
  - rewrite decide_False by congruence. reflexivity.
Qed.

(** X7: the volume policy error is reported once.  When the inspection
    succeeds on an image that declares a volume and the driver does not
    enable image volumes, [ValidateImage] returns the policy error and holds
    the record; called again, it returns [(false, nil)] without any call, and
    [CreateContainer] then passes its precondition and makes the create
    call. *)
Theorem policy_error_reported_once (s : State R) (img : ImageInspect.t) (w : R) :
  image (ck s) = None ->
  containerCreated (ck s) = false ->
  Collab.ImageInspectWithRaw (Task.Image (task (ck s))) (world s) = ((img, None), w) ->
  hasVolumes img = true ->
  Driver.ImageEnableVolume (Driver.conf (drv (ck s))) = false ->
  exists s1,
    ValidateImage s = Done (false, Some ErrImageWithVolume) s1 /\
    ValidateImage s1 = Done (false, None) s1 /\
    exists r s2, CreateContainer s1 = Done r s2 /\
      calls s2 = calls s1 ++
        [Call.ContainerCreate (opts (ck s)) (hostOpts (ck s)) (Task.Id (task (ck s)))].
Proof.
  intros Hnone Hflag Hins Hvol Hpolicy.
  assert (Hfirst : exists s1, ValidateImage s = Done (false, Some ErrImageWithVolume) s1 /\
                     ck s1 = with_image (Some (cachedImage img)) (ck s)).
  { unfold ValidateImage. munfold. rewrite Hnone, call_done, Hins. cbn.
    rewrite Hpolicy, Hvol. cbn. rewrite decide_False by done.
    destruct (Driver.imgCache (drv (ck s))); cbn.
    - rewrite decide_True by done. rewrite call_done. cbn. eauto.
    - eauto. }
  destruct Hfirst as (s1 & Hrun & Hck). exists s1. split; [exact Hrun |].
  split.
  - unfold ValidateImage. munfold. by rewrite Hck.
  - pose proof (CreateContainer_marks_created s1) as Hcreate.
    rewrite Hck in Hcreate. cbn in Hcreate. rewrite <- Hck in Hcreate.
    specialize (Hcreate ltac:(eauto) Hflag). do 2 eexists. split; [exact Hcreate |].
    reflexivity.
Qed.

(** X8: a record marked busy is marked free by [Close].  When
    [ValidateImage] captures a record without error on a driver with an
    image cache, it calls [MarkBusy] with the record; after any sequence of
    calls that return, the last call [Close] makes is [MarkFree] with that
    same record. *)
Theorem MarkBusy_answered_by_MarkFree (ms : list method) (s s1 s2 : State R)
    (img : ImageInspect.t) (w : R) :
  image (ck s) = None ->
  Driver.imgCache (drv (ck s)) = true ->
  Collab.ImageInspectWithRaw (Task.Image (task (ck s))) (world s) = ((img, None), w) ->
  ValidateImage s = Done (false, None) s1 ->
  invoke_all ms s1 = Done tt s2 ->
  calls s1 = calls s ++ [Call.ImageInspectWithRaw (Task.Image (task (ck s)));
                         Call.MarkBusy (cachedImage img)] /\
  exists e s3 l, Close s2 = Done e s3 /\
    calls s3 = calls s2 ++ l ++ [Call.MarkFree (cachedImage img)].
Proof.
  intros Hnone Hcache Hins Hval Hrun.
  assert (Hs1 : calls s1 = calls s ++ [Call.ImageInspectWithRaw (Task.Image (task (ck s)));
                                       Call.MarkBusy (cachedImage img)] /\
                image (ck s1) = Some (cachedImage img) /\ drv (ck s1) = drv (ck s)).
  { revert Hval. unfold ValidateImage. munfold. rewrite Hnone, call_done, Hins. cbn.
    rewrite decide_False by done. rewrite Hcache.
    destruct (negb _ && hasVolumes img); cbn.
    - rewrite decide_True by done. rewrite call_done. cbn. intros Heq. discriminate Heq.
    - rewrite decide_False by done. rewrite call_done. cbn. intros [= <-]. cbn.
      by rewrite <- app_assoc. }
  destruct Hs1 as (Hcalls & Himg & Hdrv). split; [exact Hcalls |].
  assert (Hkept : (forall i, image (ck s1) = Some i -> image (ck s2) = Some i) /\
                  drv (ck s2) = drv (ck s1)).
  { refine (invoke_all_rel (fun a b =>
              (forall i, image (ck a) = Some i -> image (ck b) = Some i) /\
              drv (ck b) = drv (ck a)) _ _ _ ms s1 s2 Hrun).
    - done.
    - intros a b c [Hi1 Hd1] [Hi2 Hd2]. split; [auto | congruence].
    - intros m a b Hm. apply invoke_effect in Hm as (Hc & Hi & _).
      apply configured_inv in Hc as (_ & _ & _ & Hd & _). by split. }
  destruct Hkept as [Hkeep Hdrv2]. pose proof (Hkeep _ Himg) as Himg2.
  destruct (Close_spec s2) as (e & w2 & Hclose & _).
  do 3 eexists. split; [exact Hclose |]. cbn. f_equal.
  unfold closeCalls. rewrite Himg2, Hdrv2, Hdrv, Hcache.
  rewrite !app_assoc. reflexivity.
Qed.

(** X9: steps already taken are not taken again.  On a cookie that holds a
    record and has the container flag set, [ValidateImage], [PullImage] and
    [CreateContainer], called in any order and number, all return, make no
    call and leave the state as it is. *)
Theorem repeats_do_nothing (ms : list method) (s : State R) :
  is_Some (image (ck s)) -> containerCreated (ck s) = true ->
  Forall is_repeat ms ->
  invoke_all ms s = Done tt s /\
  ValidateImage s = Done (false, None) s /\ PullImage s = Done None s /\
  CreateContainer s = Done None s.
Proof.
  intros [img Himg] Hflag Hms.
  assert (Hv : ValidateImage s = Done (false, None) s)
    by (unfold ValidateImage; munfold; by rewrite Himg).
  assert (Hp : PullImage s = Done None s)
    by (unfold PullImage; munfold; by rewrite Himg).
  assert (Hc : CreateContainer s = Done None s)
    by (unfold CreateContainer; munfold; by rewrite Himg, Hflag).
  split; [| done].
  induction Hms as [| m ms Hm _ IH]; [done |].
  rewrite invoke_all_cons.
  assert (Hinv : invoke m s = Done tt s).
  { destruct Hm as [-> | [-> | ->]]; unfold invoke; munfold; by rewrite ?Hv, ?Hp, ?Hc. }
  by rewrite Hinv.
Qed.

(** X10: when the task's own authenticator fails, [PullImage] returns its
    error and the puller is never called. *)
Theorem PullImage_auth_failure (s : State R) (a : option AuthConfig.t) (e : error) (w : R) :
  image (ck s) = None ->
  Task.Auther (task (ck s)) = true ->
  Collab.DockerAuth (Task.Image (task (ck s))) (world s) = ((a, Some e), w) ->
  PullImage s = Done (Some e)
    (mkState (ck s) w (calls s ++ [Call.DockerAuth (Task.Image (task (ck s)))])).
Proof.
  intros Hnone Hauther Hauth. unfold PullImage, authImage. munfold.
  rewrite Hnone, Hauther. cbn. rewrite call_done, Hauth. reflexivity.
Qed.

(** X11: the credentials the puller gets.  Without a record held, the
    puller is called with the registry's static credentials, unless the task
    has an authenticator that answers with credentials of its own, which
    then replace them; what [PullImage] returns is the puller's answer. *)
Theorem PullImage_credentials (s : State R) :
  image (ck s) = None ->
  let image := Task.Image (task (ck s)) in
  let static := Collab.findRegistryConfig (imgReg (ck s)) (Driver.auths (drv (ck s))) in
  (Task.Auther (task (ck s)) = false ->
   PullImage s = Done (Collab.PullImage static image (world s)).1
     (mkState (ck s) (Collab.PullImage static image (world s)).2
        (calls s ++ [Call.PullImage static image]))) /\
  (forall a w, Task.Auther (task (ck s)) = true ->
   Collab.DockerAuth image (world s) = ((a, None), w) ->
   PullImage s = Done (Collab.PullImage (default static a) image w).1
     (mkState (ck s) (Collab.PullImage (default static a) image w).2
        (calls s ++ [Call.DockerAuth image; Call.PullImage (default static a) image]))).
Proof.
  intros Hnone. cbv zeta. split.
  - intros Hauther. unfold PullImage, authImage. munfold.
    rewrite Hnone, Hauther. cbn. by rewrite call_done.
  - intros a w Hauther Hauth. unfold PullImage, authImage. munfold.
    rewrite Hnone, Hauther. cbn. rewrite call_done, Hauth. cbn.
    rewrite call_done. cbn. by rewrite <- app_assoc.
Qed.

(** X12: [CreateContainer] never returns [ErrNoSuchImage]: that answer of
    the runtime comes back as [ErrCallTimeoutServerBusy], every other answer
    as it is. *)
Theorem CreateContainer_error_mapping (s s' : State R) (r : option error) :
  CreateContainer s = Done r s' ->
  r <> Some ErrNoSuchImage /\
  (containerCreated (ck s) = false ->
   let answer := (Collab.ContainerCreate (opts (ck s)) (hostOpts (ck s))
                    (Task.Id (task (ck s))) (world s)).1 in
   (answer = Some ErrNoSuchImage -> r = Some ErrCallTimeoutServerBusy) /\
   (answer <> Some ErrNoSuchImage -> r = answer)).
Proof.
  unfold CreateContainer. munfold.
  destruct (image (ck s)) as [img |]; [| done].
  destruct (containerCreated (ck s)) eqn:Hflag.
  - intros [= <- <-]. done.
  - rewrite call_done. cbn.
    destruct (decide ((Collab.ContainerCreate _ _ _ _).1 = Some ErrNoSuchImage))
      as [Hno | Hother]; intros [= <- <-]; (split; [done |]); intros _; split; done.
Qed.

(** X13: [Close] always returns; it returns an error only if the container
    flag is set, and then the answer of the removal; whatever that answer,
    it goes on to free the grants held and to mark the record free; on a
    cookie that holds nothing it makes no call. *)
Theorem Close_releases_whatever_removal_answers (s : State R) :
  exists e s',
    Close s = Done e s' /\ ck s' = ck s /\
    calls s' = calls s ++ closeCalls (ck s) /\
    (containerCreated (ck s) = false -> e = None) /\
    (containerCreated (ck s) = true ->
     e = (Collab.RemoveContainer (Task.Id (task (ck s))) true true (world s)).1) /\
    (containerCreated (ck s) = false -> poolId (ck s) = "" -> netId (ck s) = "" ->
     image (ck s) = None -> s' = s).
Proof.
  destruct (Close_spec s) as (e & w & Hclose & He).
  do 2 eexists. split; [exact Hclose |]. cbn [ck calls].
  split; [done |]. split; [done |].
  split; [by intros Hf; rewrite Hf in He |].
  split; [by intros Hf; rewrite Hf in He |].
  intros Hf Hp Hn Hi.
  assert (Hnothing : Close s = Done None s).
  { unfold Close. munfold. rewrite Hf, Hp, Hn, Hi. cbn.
    rewrite decide_False by (intros Hne; by apply Hne). by destruct s. }
  rewrite Hnothing in Hclose. by injection Hclose as _ <-.
Qed.

End Methods2.

(** ** The network step and its grants *)

Section Grants.
Context {R : Type} `{!Collab.t R}.

(** The outcomes of the network step on a cookie without grant and without
    network mode: networking disabled, a pool grant, a network grant, or
    nothing. *)
Lemma configureNetwork_outcomes (s s' : State R) :
  ungranted (ck s) -> configureNetwork s = Done tt s' ->
  (Task.DisableNet (task (ck s)) = true /\ s' = mkState (set_NetworkMode "none" (ck s))
                                                    (world s) (calls s)) \/
  (Task.DisableNet (task (ck s)) = false /\ Driver.pool (drv (ck s)) = true /\
   exists id err w, Collab.AllocPoolId (world s) = ((id, err), w) /\ id <> "" /\
     s' = mkState (with_poolId id (set_NetworkMode ("container:" +:+ id) (ck s))) w
                  (calls s ++ [Call.AllocPoolId])) \/
  (Task.DisableNet (task (ck s)) = false /\
   exists w k id w',
     ((Driver.pool (drv (ck s)) = true /\ k = calls s ++ [Call.AllocPoolId] /\
       exists err, Collab.AllocPoolId (world s) = (("", err), w))
      \/ (Driver.pool (drv (ck s)) = false /\ k = calls s /\ w = world s)) /\
     Collab.AllocNetwork w = (id, w') /\
     ((id <> "" /\ s' = mkState (with_netId id (set_NetworkMode id (ck s))) w'
                                (k ++ [Call.AllocNetwork]))
      \/ (id = "" /\ s' = mkState (ck s) w' (k ++ [Call.AllocNetwork])))).
Proof.
  intros (_ & _ & Hmode). unfold configureNetwork. munfold.
  rewrite Hmode. rewrite decide_False by (intros Hne; by apply Hne).
  destruct (Task.DisableNet (task (ck s))).
  { intros [= <-]. by left. }
  destruct (Driver.pool (drv (ck s))); cbn.
  - rewrite call_done. cbn.
    destruct (Collab.AllocPoolId (world s)) as [[id err] w] eqn:Hpool. cbn.
    destruct (decide (id <> "")) as [Hid | Hid]; cbn.
    + intros [= <-]. right. left. repeat split. by exists id, err, w.
    + assert (id = "") as -> by (by destruct (decide (id = ""))).
      rewrite call_done. cbn.
      destruct (Collab.AllocNetwork w) as [nid w'] eqn:Hnet. cbn.
      destruct (decide (nid <> "")) as [Hnid | Hnid]; cbn; intros [= <-]; right; right;
        (split; [done |]); exists w, (calls s ++ [Call.AllocPoolId]), nid, w';
        (split; [left; eauto |]); (split; [done |]).
      * by left.
      * right. by destruct (decide (nid = "")).
  - rewrite call_done. cbn.
    destruct (Collab.AllocNetwork (world s)) as [nid w'] eqn:Hnet. cbn.
    destruct (decide (nid <> "")) as [Hnid | Hnid]; cbn; intros [= <-]; right; right;
      (split; [done |]); exists (world s), (calls s), nid, w';
      (split; [right; eauto |]); (split; [done |]).
    * by left.
    * right. by destruct (decide (nid = "")).
Qed.

Lemma one_grant_aux (s s' : State R) :
  ungranted (ck s) -> configureNetwork s = Done tt s' ->
  (poolId (ck s') = "" \/ netId (ck s') = "") /\
  (poolId (ck s') <> "" -> Driver.pool (drv (ck s')) = true).
Proof.
  intros Hfresh Hrun. pose proof Hfresh as (Hp & Hn & Hm).
  destruct (configureNetwork_outcomes s s' Hfresh Hrun)
    as [(Hdis & ->) | [(Hdis & Hpool & id & err & w & _ & Hid & ->)
                      | (Hdis & w & k & id & w' & _ & _ & [(Hid & ->) | (Hid & ->)])]];
    cbn; rewrite ?Hp, ?Hn; split; auto; try done.
Qed.

(** X14: the network step takes at most one grant.  Run on a cookie with
    no grant and no network mode yet, it leaves the pool grant or the network
    grant empty; a pool grant is only taken from a driver that has a pool,
    and the network mode is then ["container:"] followed by the grant; a
    network grant is the network mode; with neither grant the network mode
    is unset, or ["none"] when the task disables networking. *)
Theorem configureNetwork_one_grant (s s' : State R) :
  ungranted (ck s) -> configureNetwork s = Done tt s' ->
  (poolId (ck s') = "" \/ netId (ck s') = "") /\
  (poolId (ck s') <> "" ->
   Driver.pool (drv (ck s')) = true /\
   HostConfig.NetworkMode (hostOpts (ck s')) = "container:" +:+ poolId (ck s')) /\
  (netId (ck s') <> "" -> HostConfig.NetworkMode (hostOpts (ck s')) = netId (ck s')) /\
  (poolId (ck s') = "" -> netId (ck s') = "" ->
   HostConfig.NetworkMode (hostOpts (ck s')) =
     if Task.DisableNet (task (ck s)) then "none" else "").
Proof.
  intros Hfresh Hrun. pose proof Hfresh as (Hp & Hn & Hm).
  destruct (configureNetwork_outcomes s s' Hfresh Hrun)
    as [(Hdis & ->) | [(Hdis & Hpool & id & err & w & _ & Hid & ->)
                      | (Hdis & w & k & id & w' & _ & _ & [(Hid & ->) | (Hid & ->)])]];
    cbn; rewrite ?Hp, ?Hn, ?Hm, ?Hdis; repeat split; auto; try done.
Qed.

(** X15: the pool goes first, and its error is not looked at.  On a driver
    with a pool, for a task with networking, an id from the pool is taken
    as the grant and the network allocator is not asked, whatever error
    came with the id; an empty id leads on to the network allocator,
    with or without an error. *)
Theorem pool_goes_first (s s' : State R) (id : string) (err : option error) (w : R) :
  ungranted (ck s) -> configureNetwork s = Done tt s' ->
  Task.DisableNet (task (ck s)) = false -> Driver.pool (drv (ck s)) = true ->
  Collab.AllocPoolId (world s) = ((id, err), w) ->
  (id <> "" ->
   s' = mkState (with_poolId id (set_NetworkMode ("container:" +:+ id) (ck s))) w
                (calls s ++ [Call.AllocPoolId])) /\
  (id = "" ->
   calls s' = calls s ++ [Call.AllocPoolId; Call.AllocNetwork] /\
   world s' = (Collab.AllocNetwork w).2 /\
   netId (ck s') = (Collab.AllocNetwork w).1 /\ poolId (ck s') = "").
Proof.
  intros Hfresh Hrun Hdis Hpool Halloc. pose proof Hfresh as (Hp & Hn & Hm).
  destruct (configureNetwork_outcomes s s' Hfresh Hrun)
    as [(Hdis' & _) | [(_ & _ & id' & err' & w1 & Halloc' & Hid & ->)
                      | (_ & w1 & k & nid & w' & Hvia & Hnet & Hres)]].
  - congruence.
  - rewrite Halloc in Halloc'. injection Halloc' as <- <- <-. split; [done |].
    intros ->. done.
  - destruct Hvia as [(_ & -> & err' & Halloc') | (Hnopool & _)]; [| congruence].
    rewrite Halloc in Halloc'. injection Halloc' as -> <- <-.
    split; [done |]. intros _. rewrite Hnet.
    destruct Hres as [(Hnid & ->) | (-> & ->)]; cbn; rewrite <- ?app_assoc; cbn;
      rewrite ?Hp, ?Hn; done.
Qed.

(** X16: what the network step takes, [Close] frees.  After the network
    step on a cookie without grant, and any sequence of calls that return,
    the calls [Close] makes between the removal and [MarkFree] are
    [FreePoolId] with the pool grant if one was taken, [FreeNetwork] with the
    network grant if one was taken, and none otherwise. *)
Theorem grant_taken_is_freed (ms : list method) (s s1 s2 : State R) :
  ungranted (ck s) -> configureNetwork s = Done tt s1 ->
  invoke_all ms s1 = Done tt s2 ->
  exists e s3, Close s2 = Done e s3 /\
    calls s3 = calls s2 ++
      (if containerCreated (ck s2)
       then [Call.RemoveContainer (Task.Id (task (ck s2))) true true] else []) ++
      (if decide (poolId (ck s1) <> "") then [Call.FreePoolId (poolId (ck s1))]
       else if decide (netId (ck s1) <> "") then [Call.FreeNetwork (netId (ck s1))]
       else []) ++
      match image (ck s2) with
      | Some img => if Driver.imgCache (drv (ck s2)) then [Call.MarkFree img] else []
      | None => []
      end.
Proof.
  intros Hfresh Hnet Hrun.
  destruct (one_grant_aux s s1 Hfresh Hnet) as (Hone & Hpool).
  assert (Hsame : configured (ck s2) = configured (ck s1)).
  { refine (invoke_all_rel (fun a b => configured (ck b) = configured (ck a))
              _ _ _ ms s1 s2 Hrun).
    - done.
    - intros a b c Hab Hbc. by rewrite Hbc.
    - intros m a b Hm. by apply invoke_effect in Hm as [Hc _]. }
  apply configured_inv in Hsame as (_ & _ & _ & Hd & Hp & Hn & _).
  destruct (Close_spec s2) as (e & w & Hclose & _).
  do 2 eexists. split; [exact Hclose |]. cbn [calls]. f_equal.
  unfold closeCalls. rewrite Hp, Hn, Hd. f_equal.
  rewrite app_assoc. f_equal.
  destruct (decide (poolId (ck s1) <> "")) as [Hset | Hunset].
  - rewrite bool_decide_eq_true_2, (Hpool Hset) by done. cbn.
    destruct Hone as [Hp0 | Hn0]; [congruence |].
    rewrite Hn0. by rewrite decide_False by (intros Hne; by apply Hne).
  - rewrite bool_decide_eq_false_2 by done. reflexivity.
Qed.

End Grants.

(** ** Single configuration steps *)

(** X17: the process limit has no guard against overflow.  A limit of 0
    changes nothing; a limit that fits a signed 64-bit integer is set as it
    is; a larger one, which the ulimits step would skip, is set as a negative
    limit. *)
Theorem configurePIDs_limit (c : cookie) :
  Go.is_uint64 (Task.PIDs (task c)) ->
  (Task.PIDs (task c) = 0 -> configurePIDs c = c) /\
  (0 < Task.PIDs (task c) <= Go.MaxInt64 ->
   HostConfig.PidsLimit (hostOpts (configurePIDs c)) = Some (Task.PIDs (task c))) /\
  (Go.MaxInt64 < Task.PIDs (task c) ->
   HostConfig.PidsLimit (hostOpts (configurePIDs c)) = Some (Task.PIDs (task c) - 2 ^ 64) /\
   Task.PIDs (task c) - 2 ^ 64 < 0).
Proof.
  intros Hrange. unfold configurePIDs. cbv zeta. repeat split.
  - intros H0. by rewrite decide_True.
  - intros Hfit. rewrite decide_False by lia. cbn. by rewrite int64_small by lia.
  - rewrite decide_False by (unfold Go.MaxInt64 in *; lia). cbn.
    unfold Go.is_uint64 in Hrange. by rewrite int64_large by lia.
  - unfold Go.is_uint64 in Hrange. lia.
Qed.

(** X18: the mount at ["/tmp"].  Without a size and without a read-only
    root the step changes nothing.  Otherwise it sets the mount at ["/tmp"]
    and keeps every other mount: with no options when the size is 0, which is
    the case of a read-only root alone, else with ["size=<n>m"], followed by
    [",nr_inodes=<i>"] when the driver caps the inodes. *)
Theorem configureTmpFs_mount (c : cookie) :
  let n := Task.TmpFsSize (task c) in
  let i := Driver.MaxTmpFsInodes (Driver.conf (drv c)) in
  let ro := Driver.EnableReadOnlyRootFs (Driver.conf (drv c)) in
  (n = 0 -> ro = false -> configureTmpFs c = c) /\
  (n <> 0 \/ ro = true ->
   exists mounts : gmap string string,
     HostConfig.Tmpfs (hostOpts (configureTmpFs c)) = Some mounts /\
     (forall target, target <> "/tmp" ->
        mounts !! target = default ∅ (HostConfig.Tmpfs (hostOpts c)) !! target) /\
     mounts !! "/tmp" =
       Some (if decide (n = 0) then ""
             else if decide (i = 0) then "size=" +:+ Go.fmt_int n +:+ "m"
             else "size=" +:+ Go.fmt_int n +:+ "m,nr_inodes=" +:+ Go.fmt_int i)).
Proof.
  cbv zeta. unfold configureTmpFs. cbv zeta. split.
  - intros -> ->. by rewrite bool_decide_eq_true_2.
  - intros Hmount.
    assert (Hgo : bool_decide (Task.TmpFsSize (task c) = 0)
                  && negb (Driver.EnableReadOnlyRootFs (Driver.conf (drv c))) = false).
    { destruct Hmount as [Hn | ->]; [| by rewrite andb_false_r].
      by rewrite bool_decide_eq_false_2. }
    rewrite Hgo. cbn. eexists. split; [reflexivity |]. split.
    + intros target Hne. by rewrite lookup_insert_ne.
    + rewrite lookup_insert_eq. f_equal.
      destruct (decide (Task.TmpFsSize (task c) = 0)) as [Hz | Hnz].
      * by rewrite decide_False by (intros Hne; by apply Hne).
      * rewrite decide_True by done.
        destruct (decide (Driver.MaxTmpFsInodes (Driver.conf (drv c)) = 0)) as [Hi | Hi].
        -- by rewrite decide_False by (intros Hne; by apply Hne).
        -- by rewrite decide_True.
Qed.

Lemma configureVolumes_fold (l : list (string * string)) (c : cookie) :
  let r := fold_left
             (fun c (mapping : string * string) =>
                let hostDir := mapping.1 in
                let containerDir := mapping.2 in
                let c := on_opts (fun o =>
                           Config.with_Volumes
                             (Some ({[containerDir]} ∪ default ∅ (Config.Volumes o))) o) c in
                let mapn := hostDir +:+ ":" +:+ containerDir in
                on_hostOpts (fun h => HostConfig.with_Binds (HostConfig.Binds h ++ [mapn]) h) c)
             l c in
  HostConfig.Binds (hostOpts r) = HostConfig.Binds (hostOpts c) ++ (bindEntry <$> l) /\
  (forall d, d ∈ default (∅ : gset string) (Config.Volumes (opts r)) <->
             d ∈ default (∅ : gset string) (Config.Volumes (opts c)) \/ d ∈ (snd <$> l)) /\
  (l <> [] -> is_Some (Config.Volumes (opts r))).
Proof.
  cbv zeta. revert c. induction l as [| m l IH]; intros c.
  - cbn. rewrite app_nil_r. split; [done |]. split; [| done].
    intros d. rewrite elem_of_nil. tauto.
  - cbn [fold_left]. destruct (IH (on_hostOpts (fun h =>
              HostConfig.with_Binds (HostConfig.Binds h ++ [m.1 +:+ ":" +:+ m.2]) h)
            (on_opts (fun o => Config.with_Volumes
               (Some ({[m.2]} ∪ default ∅ (Config.Volumes o))) o) c)))
      as (Hb & Hv & Hs).
    cbn in Hb, Hv. split; [| split].
    + rewrite Hb, <- app_assoc. reflexivity.
    + intros d. rewrite Hv, fmap_cons, elem_of_cons, elem_of_union, elem_of_singleton.
      tauto.
    + intros _. destruct l as [| m' l]; [cbn; eauto | apply Hs; done].
Qed.

(** X19: the volumes step appends one bind entry ["host:container"] per
    mapping, in the order of the mappings, after the entries already there,
    and declares as volumes the container directories of the mappings
    besides those already declared; with no mapping it changes nothing. *)
Theorem configureVolumes_binds_and_volumes (c : cookie) :
  HostConfig.Binds (hostOpts (configureVolumes c))
    = HostConfig.Binds (hostOpts c) ++ (bindEntry <$> Task.Volumes (task c)) /\
  (forall d, d ∈ default (∅ : gset string) (Config.Volumes (opts (configureVolumes c))) <->
             d ∈ default (∅ : gset string) (Config.Volumes (opts c)) \/
             d ∈ (snd <$> Task.Volumes (task c))) /\
  (Task.Volumes (task c) = [] -> configureVolumes c = c) /\
  (Task.Volumes (task c) <> [] -> is_Some (Config.Volumes (opts (configureVolumes c)))).
Proof.
  unfold configureVolumes.
  destruct (decide (length (Task.Volumes (task c)) = 0%nat)) as [Hz | Hnz].
  - apply nil_length_inv in Hz. rewrite Hz. cbn. rewrite app_nil_r.
    split; [done |]. split; [intros d; rewrite elem_of_nil; tauto |]. done.
  - destruct (configureVolumes_fold (Task.Volumes (task c)) c) as (Hb & Hv & Hs).
    cbv zeta in Hb, Hv, Hs. split; [exact Hb |]. split; [exact Hv |]. split.
    + intros Hnil. rewrite Hnil in Hnz. done.
    + exact Hs.
Qed.

Section Labels.
Context {R : Type} `{!Collab.t R}.

(** X20: with no label tag configured the labels step changes nothing.
    Otherwise the labels hold the driver's instance id under the instance
    label and, the two label names being different, the tag under the
    classifier label; every other label is kept. *)
Theorem configureLabels_lookup (c : cookie) :
  let tag := Driver.ContainerLabelTag (Driver.conf (drv c)) in
  (tag = "" -> configureLabels c = c) /\
  (tag <> "" ->
   exists labels : gmap string string,
     Config.Labels (opts (configureLabels c)) = Some labels /\
     labels !! Collab.FnAgentInstanceLabel = Some (Driver.instanceId (drv c)) /\
     (Collab.FnAgentClassifierLabel <> Collab.FnAgentInstanceLabel ->
      labels !! Collab.FnAgentClassifierLabel = Some tag) /\
     (forall k, k <> Collab.FnAgentClassifierLabel -> k <> Collab.FnAgentInstanceLabel ->
        labels !! k = default ∅ (Config.Labels (opts c)) !! k)).
Proof.
  cbv zeta. unfold configureLabels. cbv zeta. split.
  - intros Htag. by rewrite decide_True.
  - intros Htag. rewrite decide_False by done. cbn. unfold map_set. cbn.
    eexists. split; [reflexivity |]. split; [by rewrite lookup_insert_eq |]. split.
    + intros Hne. rewrite lookup_insert_ne by done. by rewrite lookup_insert_eq.
    + intros k Hk1 Hk2. by rewrite !lookup_insert_ne.
Qed.

End Labels.

(** X21: without a log URL the log driver is ["none"] with no options, tags
    or not.  With a URL it is ["syslog"] with the URL as address, facility
    ["user"] and format ["rfc5424"]; the option ["tag"] is there exactly when
    the task has tag pairs, and holds them as [name=value] joined by
    commas. *)
Theorem configureLogger_options (c : cookie) :
  let conf := Task.LoggerConfig (task c) in
  let log := HostConfig.LogConfig (hostOpts (configureLogger c)) in
  (LoggerConfig.URL conf = "" -> log = LogConfig.mk "none" None) /\
  (LoggerConfig.URL conf <> "" ->
   LogConfig.Type_ log = "syslog" /\
   exists options : gmap string string,
     LogConfig.Config log = Some options /\
     options !! "syslog-address" = Some (LoggerConfig.URL conf) /\
     options !! "syslog-facility" = Some "user" /\
     options !! "syslog-format" = Some "rfc5424" /\
     (LoggerConfig.Tags conf = [] -> options !! "tag" = None) /\
     (LoggerConfig.Tags conf <> [] ->
      options !! "tag" =
        Some (Go.Join ((fun pair : string * string => pair.1 +:+ "=" +:+ pair.2)
                         <$> LoggerConfig.Tags conf) ","))).
Proof.
  cbv zeta. unfold configureLogger. cbv zeta. split.
  - intros Hurl. by rewrite decide_True.
  - intros Hurl. rewrite decide_False by done. cbn. split; [done |].
    eexists. split; [reflexivity |].
    destruct (LoggerConfig.Tags (Task.LoggerConfig (task c))) as [| t ts] eqn:Htags.
    + cbn. rewrite decide_False by lia.
      repeat split; try done; by simplify_map_eq.
    + rewrite decide_True by (cbn; lia).
      repeat split; try done; by simplify_map_eq.
Qed.

(** ** Steps run twice, and the fields steps own *)

Lemma insert_twice (k1 v1 k2 v2 : string) (m : gmap string string) :
  <[k2 := v2]> (<[k1 := v1]> (<[k2 := v2]> (<[k1 := v1]> m)))
    = <[k2 := v2]> (<[k1 := v1]> m).
Proof.
  apply map_eq. intros k. rewrite !lookup_insert.
  repeat case_decide; congruence.
Qed.

Lemma volumes_binds_eq (c : cookie) :
  HostConfig.Binds (hostOpts (configureVolumes c))
    = HostConfig.Binds (hostOpts c) ++ (bindEntry <$> Task.Volumes (task c)).
Proof.
  unfold configureVolumes.
  destruct (decide (length (Task.Volumes (task c)) = 0%nat)) as [Hz | Hnz].
  - apply nil_length_inv in Hz. rewrite Hz. cbn. by rewrite app_nil_r.
  - by destruct (configureVolumes_fold (Task.Volumes (task c)) c) as (Hb & _).
Qed.

Section Twice.
Context {R : Type} `{!Collab.t R}.

Lemma configureTmpFs_twice (c : cookie) : configureTmpFs (configureTmpFs c) = configureTmpFs c.
Proof.
  unfold configureTmpFs. cbv zeta.
  destruct (bool_decide (Task.TmpFsSize (task c) = 0)
            && negb (Driver.EnableReadOnlyRootFs (Driver.conf (drv c)))) eqn:Hskip.
  - by rewrite Hskip.
  - cbn. rewrite Hskip. unfold on_hostOpts, with_hostOpts, HostConfig.with_Tmpfs, map_set.
    cbn. by rewrite insert_insert_eq.
Qed.

Lemma configureSecurity_twice (c : cookie) :
  configureSecurity (configureSecurity c) = configureSecurity c.
Proof.
  unfold configureSecurity.
  destruct (Driver.DisableUnprivilegedContainers (Driver.conf (drv c))) eqn:Hoff.
  - by rewrite Hoff.
  - cbn. by rewrite Hoff.
Qed.

(** X22: the steps that assign are idempotent: run a second time, each of
    the image, labels, logging, memory, storage size, process limit, tmpfs,
    CPU, working directory, hostname, command and security steps leaves the
    cookie as the first run left it. *)
Theorem assigning_steps_idempotent (st : step) (c : cookie) :
  In st assigning -> step_fun st (step_fun st c) = step_fun st c.
Proof.
  intros Hin. unfold assigning in Hin. cbn in Hin.
  repeat (destruct Hin as [<- | Hin]); try done; cbn [step_fun];
    first
      [ apply configureTmpFs_twice
      | apply configureSecurity_twice
      | open_step; frame_step; unfold map_set; cbn;
        rewrite ?insert_insert_eq, ?insert_twice; try reflexivity; try congruence ].
Qed.

(** X23: the steps that append are not idempotent: run a second time, the
    socket bind, ulimits, volumes and environment steps append their entries
    once more. *)
Theorem appending_steps_append_again (iter : list (string * string)) (c : cookie) :
  HostConfig.Binds (hostOpts (configureIOFS (configureIOFS c)))
    = HostConfig.Binds (hostOpts c) ++
      (if decide (Task.UDSDockerPath (task c) = "") then []
       else [Task.UDSDockerPath (task c) +:+ ":" +:+ Task.UDSDockerDest (task c);
             Task.UDSDockerPath (task c) +:+ ":" +:+ Task.UDSDockerDest (task c)]) /\
  HostConfig.Ulimits (hostOpts (configureULimits (configureULimits c)))
    = HostConfig.Ulimits (hostOpts c) ++ code_ulimits (task c) ++ code_ulimits (task c) /\
  HostConfig.Binds (hostOpts (configureVolumes (configureVolumes c)))
    = HostConfig.Binds (hostOpts c) ++ (bindEntry <$> Task.Volumes (task c)) ++
      (bindEntry <$> Task.Volumes (task c)) /\
  (range_order (Task.EnvVars (task c)) iter ->
   Config.Env (opts (configureEnv iter (configureEnv iter c)))
     = Config.Env (opts c) ++ (envEntry <$> iter) ++ (envEntry <$> iter)).
Proof.
  split; [| split; [| split]].
  - unfold configureIOFS. cbv zeta.
    destruct (decide (Task.UDSDockerPath (task c) = "")) as [Hp | Hp]; cbn.
    + rewrite decide_True by done. by rewrite app_nil_r.
    + rewrite decide_False by done. cbn. by rewrite <- app_assoc.
  - rewrite !configureULimits_adds. cbn. by rewrite <- app_assoc.
  - rewrite !volumes_binds_eq.
    destruct (frame_configureVolumes c) as (-> & _). by rewrite <- app_assoc.
  - intros Hord. rewrite (configureEnv_spec iter c) by done.
    rewrite configureEnv_spec by done. cbn. by rewrite <- app_assoc.
Qed.

Lemma configureNetwork_owns (s s' : State R) :
  configureNetwork s = Done tt s' ->
  security_of (ck s') = security_of (ck s) /\ limits_of (ck s') = limits_of (ck s).
Proof.
  unfold configureNetwork.
  mrun_all; intros [= <-]; done.
Qed.

Lemma step_fun_owns (st : step) (c : cookie) :
  st <> stepNetwork ->
  (st <> stepSecurity -> security_of (step_fun st c) = security_of c) /\
  (st <> stepMem -> st <> stepCPU -> st <> stepPIDs ->
   limits_of (step_fun st c) = limits_of c).
Proof.
  intros Hnet.
  destruct st; try done; cbn [step_fun]; (split; [intros Hs | intros Hm Hc Hp]); try done;
    first
      [ rewrite configureULimits_adds; reflexivity
      | unfold configureVolumes; destruct (decide _); [done |];
        first [ by apply (fold_left_preserves security_of)
              | by apply (fold_left_preserves limits_of) ]
      | unfold configureEnv;
        destruct (decide (size (Task.EnvVars (task c)) = 0%nat)); [done |];
        first [ by apply (fold_left_preserves security_of)
              | by apply (fold_left_preserves limits_of) ]
      | unfold security_of, limits_of; open_step; frame_step ].
Qed.

(** X24: steps own their fields.  Over any sequence of configuration
    steps, the user, the dropped capabilities and the security options are
    written by the security step only, and the memory, CPU and process
    limits by the memory, CPU and process limit steps only. *)
Theorem steps_own_their_fields (l : list step) (s s' : State R) :
  run_steps l s = Done tt s' ->
  (Forall (fun st => st <> stepSecurity) l -> security_of (ck s') = security_of (ck s)) /\
  (Forall (fun st => st <> stepMem /\ st <> stepCPU /\ st <> stepPIDs) l ->
   limits_of (ck s') = limits_of (ck s)).
Proof.
  intros Hrun. split; intros Hl.
  - destruct (run_steps_keeps (fun s0 => security_of (ck s0) = security_of (ck s))
                (fun st => st <> stepSecurity)) with (l := l) (s := s)
      as (s1 & Hrun1 & Hkeep); [| done | done |].
    + intros st s0 Hst H0. destruct (decide (st = stepNetwork)) as [-> | Hnet].
      * destruct (configureNetwork_done s0) as (s1 & Hrun1 & _).
        exists s1. split; [done |].
        apply configureNetwork_owns in Hrun1 as [Hsec _]. by rewrite Hsec.
      * rewrite run_step_fun by done. eexists. split; [done |]. cbn.
        destruct (step_fun_owns st (ck s0) Hnet) as [Hsec _]. by rewrite Hsec.
    + rewrite Hrun in Hrun1. by injection Hrun1 as <-.
  - destruct (run_steps_keeps (fun s0 => limits_of (ck s0) = limits_of (ck s))
                (fun st => st <> stepMem /\ st <> stepCPU /\ st <> stepPIDs))
      with (l := l) (s := s) as (s1 & Hrun1 & Hkeep); [| done | done |].
    + intros st s0 (Hm & Hc & Hp) H0. destruct (decide (st = stepNetwork)) as [-> | Hnet].
      * destruct (configureNetwork_done s0) as (s1 & Hrun1 & _).
        exists s1. split; [done |].
        apply configureNetwork_owns in Hrun1 as [_ Hlim]. by rewrite Hlim.
      * rewrite run_step_fun by done. eexists. split; [done |]. cbn.
        destruct (step_fun_owns st (ck s0) Hnet) as [_ Hlim]. by rewrite Hlim.
    + rewrite Hrun in Hrun1. by injection Hrun1 as <-.
Qed.

End Twice.

(** ** What the runtime is called with *)

Section CallArguments.
Context {R : Type} `{!Collab.t R}.

Lemma call_ok_configured (c c' : cookie) (e : Call.t) :
  configured c' = configured c -> call_ok c e -> call_ok c' e.
Proof.
  intros Hc. apply configured_inv in Hc as (Ho & Hh & Ht & _).
  unfold call_ok. by rewrite Ho, Hh, Ht.
Qed.

Lemma invoke_calls_ok (m : method) (s s' : State R) :
  invoke m s = Done tt s' ->
  exists l, calls s' = calls s ++ l /\ Forall (call_ok (ck s)) l.
Proof.
  assert (Hclose : Forall (call_ok (ck s)) (closeCalls (ck s))).
  { unfold closeCalls.
    repeat match goal with
           | |- context [if ?b then _ else _] => destruct b
           | |- context [match ?x with Some _ => _ | None => _ end] => destruct x
           end; cbn; repeat constructor. }
  destruct m; unfold invoke;
    [ unfold ValidateImage | unfold PullImage, authImage | unfold CreateContainer
    | unfold Run | unfold Freeze | unfold Unfreeze
    | destruct (Close_spec s) as (r & w & Hc & _); munfold; rewrite Hc ];
    mrun_all; intros [= <-]; cbn;
    (eexists; split;
     [ first [ reflexivity | exact (eq_sym (app_nil_r _))
             | rewrite <- !app_assoc; reflexivity ]
     | first [ exact Hclose | repeat constructor ] ]).
Qed.

(** X25: every call about the container names this task.  Over any
    sequence of method calls that return, each create call made carries the
    cookie's launch configuration and the task's identifier as the name,
    each removal is for that identifier, forced and with volumes, each pause
    and unpause is for that identifier, and each inspection, pull and
    authentication is for the task's image. *)
Theorem calls_name_the_task (ms : list method) (s s' : State R) :
  invoke_all ms s = Done tt s' ->
  exists l, calls s' = calls s ++ l /\ Forall (call_ok (ck s)) l.
Proof.
  intros Hrun.
  assert (Hrel : configured (ck s') = configured (ck s) /\
                 exists l, calls s' = calls s ++ l /\ Forall (call_ok (ck s)) l);
    [| by destruct Hrel].
  refine (invoke_all_rel (fun a b =>
            configured (ck b) = configured (ck a) /\
            exists l, calls b = calls a ++ l /\ Forall (call_ok (ck a)) l) _ _ _ ms s s' Hrun).
  - intros a. split; [done |]. exists []. by rewrite app_nil_r.
  - intros a b c [Hab (l1 & Hl1 & Hok1)] [Hbc (l2 & Hl2 & Hok2)].
    split; [by rewrite Hbc |]. exists (l1 ++ l2).
    split; [by rewrite Hl2, Hl1, app_assoc |].
    apply Forall_app. split; [done |].
    eapply Forall_impl; [exact Hok2 |]. intros e. by apply call_ok_configured.
  - intros m a b Hm. split.
    + by apply invoke_effect in Hm as [Hc _].
    + by apply invoke_calls_ok in Hm.
Qed.

End CallArguments.

Lemma calls_name_the_task_witness :
  exists l, calls Walk.s3 = calls Walk.s0 ++ l /\ Forall (call_ok (ck Walk.s0)) l.
Proof.
  apply (calls_name_the_task [mValidateImage; mCreateContainer; mClose] Walk.s0 Walk.s3).
  by vm_compute.
Defined.

(** ** The further properties on concrete inputs *)

Lemma fatal_only_without_record_witness :
  exists s', invoke mCreateContainer Trace.pulled = Fatal s'.
Proof.
  apply (fatal_only_without_record mCreateContainer Trace.pulled).
  split; [reflexivity | by vm_compute].
Defined.

Lemma ValidateImage_inspection_failure_witness :
  ValidateImage (Sample.start Sample.pullable) =
    Done (true, None)
         (mkState (newCookie Sample.busyTask Sample.driver) Sample.pullable
                  [Call.ImageInspectWithRaw "busy:1"]).
Proof.
  apply (ValidateImage_inspection_failure (Sample.start Sample.pullable) Mem.zeroImage
           ErrNoSuchImage Sample.pullable); reflexivity.
Defined.

Lemma policy_error_reported_once_witness :
  exists s1,
    ValidateImage (Sample.start Sample.withVolume)
      = Done (false, Some ErrImageWithVolume) s1 /\
    ValidateImage s1 = Done (false, None) s1 /\
    exists r s2, CreateContainer s1 = Done r s2 /\
      calls s2 = calls s1 ++
        [Call.ContainerCreate zeroConfig zeroHostConfig "call-1"].
Proof.
  apply (policy_error_reported_once (Sample.start Sample.withVolume) Sample.volumeImage
           Sample.withVolume); by vm_compute.
Defined.

Lemma MarkBusy_answered_by_MarkFree_witness :
  calls Walk.s1 = [Call.ImageInspectWithRaw "busy:1"; Call.MarkBusy Trace.busyRecord] /\
  exists e s3 l, Close Walk.s2 = Done e s3 /\
    calls s3 = calls Walk.s2 ++ l ++ [Call.MarkFree Trace.busyRecord].
Proof.
  apply (MarkBusy_answered_by_MarkFree [mCreateContainer] Walk.s0 Walk.s1 Walk.s2
           Sample.busyImage Trace.granting); by vm_compute.
Defined.

Lemma repeats_do_nothing_witness :
  invoke_all [mValidateImage; mCreateContainer; mPullImage; mCreateContainer] Walk.s2
    = Done tt Walk.s2.
Proof.
  destruct (repeats_do_nothing [mValidateImage; mCreateContainer; mPullImage; mCreateContainer]
              Walk.s2) as [Hall _].
  - exists Trace.busyRecord. by vm_compute.
  - by vm_compute.
  - repeat (constructor; [first [by left | by right; left | by right; right] |]).
    constructor.
  - exact Hall.
Defined.

Lemma PullImage_auth_failure_witness :
  @PullImage Mem.t Rich.denying (Rich.start Sample.pullable) =
    Done (Some (ErrOther "unauthorized"))
         (mkState Rich.cookie0 Sample.pullable [Call.DockerAuth "busy:1"]).
Proof.
  apply (@PullImage_auth_failure Mem.t Rich.denying (Rich.start Sample.pullable) None
           (ErrOther "unauthorized") Sample.pullable); reflexivity.
Defined.

Lemma PullImage_credentials_witness :
  (exists s', PullImage (Sample.start Sample.pullable) = Done None s' /\
     calls s' = [Call.PullImage (AuthConfig.mk "" "" "") "busy:1"]) /\
  (exists s', @PullImage Mem.t Rich.answering (Rich.start Sample.pullable) = Done None s' /\
     calls s' = [Call.DockerAuth "busy:1"; Call.PullImage Rich.own "busy:1"]).
Proof.
  split.
  - destruct (PullImage_credentials (Sample.start Sample.pullable)) as [Hstatic _];
      [reflexivity |].
    eexists. split; [apply Hstatic; reflexivity | reflexivity].
  - destruct (@PullImage_credentials Mem.t Rich.answering (Rich.start Sample.pullable))
      as [_ Hown]; [reflexivity |].
    eexists. split; [apply (Hown (Some Rich.own) Sample.pullable); reflexivity | reflexivity].
Defined.

Lemma CreateContainer_error_mapping_witness :
  exists s', CreateContainer Walk.s1 = Done None s' /\ None <> Some ErrNoSuchImage.
Proof.
  eexists. split; [by vm_compute |].
  eapply (CreateContainer_error_mapping Walk.s1). by vm_compute.
Defined.

Lemma Close_releases_whatever_removal_answers_witness :
  exists e s', Close Walk.s2 = Done e s' /\
    calls s' = calls Walk.s2 ++
      [Call.RemoveContainer "call-1" true true; Call.MarkFree Trace.busyRecord] /\
    e = None.
Proof.
  destruct (Close_releases_whatever_removal_answers Walk.s2)
    as (e & s' & Hclose & _ & Hcalls & _ & Herr & _).
  exists e, s'. split; [exact Hclose |]. split; [exact Hcalls |].
  rewrite Herr; by vm_compute.
Defined.

Lemma configureNetwork_one_grant_witness :
  exists s', configureNetwork (Sample.start Trace.granting) = Done tt s' /\
    poolId (ck s') = "p1" /\ netId (ck s') = "" /\
    HostConfig.NetworkMode (hostOpts (ck s')) = "container:" +:+ poolId (ck s').
Proof.
  eexists. split; [by vm_compute |].
  edestruct (configureNetwork_one_grant (Sample.start Trace.granting)) as (_ & Hpool & _);
    [by vm_compute | by vm_compute |].
  split; [by vm_compute |]. split; [by vm_compute |].
  apply Hpool. by vm_compute.
Defined.

Lemma pool_goes_first_witness :
  exists s', configureNetwork (Sample.start Trace.granting) = Done tt s' /\
    calls s' = [Call.AllocPoolId].
Proof.
  exists (Trace.state_of (configureNetwork (Sample.start Trace.granting))).
  split; [by vm_compute |].
  destruct (pool_goes_first (Sample.start Trace.granting)
              (Trace.state_of (configureNetwork (Sample.start Trace.granting))) "p1" None
              (Mem.mk [("busy:1", Sample.busyImage)] [] [] None [] [] []))
    as [Hgrant _]; [by vm_compute | by vm_compute | reflexivity | reflexivity
                   | reflexivity |].
  rewrite Hgrant by done. reflexivity.
Defined.

Lemma grant_taken_is_freed_witness :
  exists e s3,
    Close Walk.s2n = Done e s3 /\
    calls s3 = calls Walk.s2n ++
      [Call.RemoveContainer "call-1" true true; Call.FreePoolId "p1";
       Call.MarkFree Trace.busyRecord].
Proof.
  destruct (grant_taken_is_freed [mValidateImage; mCreateContainer]
              (Sample.start Trace.granting) Walk.s1n Walk.s2n)
    as (e & s3 & Hclose & Hcalls); [by vm_compute | by vm_compute | by vm_compute |].
  exists e, s3. split; [exact Hclose | exact Hcalls].
Defined.

Lemma configurePIDs_limit_witness :
  HostConfig.PidsLimit (hostOpts (configurePIDs Rich.cookie0)) = Some (2 ^ 63 + 5 - 2 ^ 64) /\
  2 ^ 63 + 5 - 2 ^ 64 < 0.
Proof.
  destruct (configurePIDs_limit Rich.cookie0) as (_ & _ & Hbig); [in_range |].
  apply Hbig. by vm_compute.
Defined.

Lemma configureTmpFs_mount_witness :
  exists mounts : gmap string string,
    HostConfig.Tmpfs (hostOpts (configureTmpFs Rich.cookie0)) = Some mounts /\
    mounts !! "/tmp" = Some "size=16m,nr_inodes=1024".
Proof.
  destruct (configureTmpFs_mount Rich.cookie0) as [_ Hmount].
  destruct Hmount as (mounts & Hm & _ & Htmp); [by right |].
  exists mounts. split; [exact Hm |]. rewrite Htmp. by vm_compute.
Defined.

Lemma configureVolumes_binds_and_volumes_witness :
  HostConfig.Binds (hostOpts (configureVolumes Rich.cookie0)) = ["/host/a:/a"; "/host/b:/b"] /\
  is_Some (Config.Volumes (opts (configureVolumes Rich.cookie0))).
Proof.
  destruct (configureVolumes_binds_and_volumes Rich.cookie0) as (Hb & _ & _ & Hs).
  split; [rewrite Hb; by vm_compute | apply Hs; by vm_compute].
Defined.

Lemma configureLabels_lookup_witness :
  exists labels : gmap string string,
    Config.Labels (opts (configureLabels Rich.cookie0)) = Some labels /\
    labels !! "fn-agent-instance" = Some "i-1" /\
    labels !! "fn-agent-classifier" = Some "blue".
Proof.
  destruct (configureLabels_lookup (R := Mem.t) Rich.cookie0) as [_ Hset].
  destruct Hset as (labels & Hl & Hi & Hc & _); [by vm_compute |].
  exists labels. split; [exact Hl |]. split; [exact Hi |]. apply Hc. by vm_compute.
Defined.

Lemma configureLogger_options_witness :
  exists options : gmap string string,
    LogConfig.Config (HostConfig.LogConfig (hostOpts (configureLogger Rich.cookie0)))
      = Some options /\
    options !! "syslog-address" = Some "tcp://logs:514" /\
    options !! "tag" = Some "app=a1,fn=f1".
Proof.
  destruct (configureLogger_options Rich.cookie0) as [_ Hurl].
  destruct Hurl as (_ & options & Ho & Ha & _ & _ & _ & Ht); [by vm_compute |].
  exists options. split; [exact Ho |]. split; [exact Ha |].
  rewrite Ht by (by vm_compute). by vm_compute.
Defined.

Lemma assigning_steps_idempotent_witness :
  configureLabels (configureLabels Rich.cookie0) = configureLabels Rich.cookie0.
Proof.
  apply (assigning_steps_idempotent (R := Mem.t) stepLabels Rich.cookie0).
  unfold assigning. cbn. auto.
Defined.

Lemma appending_steps_append_again_witness :
  Config.Env (opts (configureEnv [("A", "1"); ("B", "2")]
                      (configureEnv [("A", "1"); ("B", "2")] Rich.cookie0)))
    = ["A=1"; "B=2"; "A=1"; "B=2"].
Proof.
  destruct (appending_steps_append_again [("A", "1"); ("B", "2")] Rich.cookie0)
    as (_ & _ & _ & Henv).
  rewrite Henv; [by vm_compute | apply twoVars_orders].
Defined.

Lemma steps_own_their_fields_witness :
  exists s', configure [("A", "1"); ("B", "2")] (Rich.start Trace.granting) = Done tt s' /\
    limits_of (ck s') =
      limits_of (configurePIDs (configureCPU (configureMem Rich.cookie0))).
Proof.
  eexists. split; [by vm_compute |].
  edestruct (steps_own_their_fields
               (drop 11 (specOrder [("A", "1"); ("B", "2")]))
               (Trace.state_of (run_steps (take 11 (specOrder [("A", "1"); ("B", "2")]))
                                  (Rich.start Trace.granting))))
    as [_ Hlim]; [by vm_compute |].
  rewrite Hlim; [by vm_compute |].
  cbn. repeat constructor; discriminate.
Defined.
